(** * The [list] command of the runtime (list.go)

    A shallow embedding of [list.go]: the container-state records, the
    stale-asset comparison, the three output formats behind the
    [formatState] interface, the state-directory scan [getContainers] and
    the command's [Action], followed by the properties of the command's
    output.

    What [list.go] imports is kept at the package boundary.  The Go
    standard library's [time], [text/tabwriter] and the string escaping of
    [encoding/json], and virtcontainers' [ContainerStatus] with
    [StatusToOCIState], are members of the class [GoLib]; the host the
    command runs on ([vci.ListPod], [os.Stat]) is the record [Host]. *)

From Stdlib Require Import ZArith List String Ascii Bool Lia.
From Stdlib Require Import Numbers.DecimalString.
Import ListNotations.

Set Warnings "-register-all".

Open Scope string_scope.

(** ** Go values *)

(** A Go slice.  [None] is the nil slice, which [encoding/json] writes as
    [null]; [Some l] is an allocated slice, written as an array. *)
Module Slice.

Definition slice (A : Type) : Type := option (list A).

Definition elems {A : Type} (s : slice A) : list A :=
  match s with
  | None => []
  | Some l => l
  end.

(** [append(s, x)]: the result is never nil. *)
Definition append {A : Type} (s : slice A) (x : A) : slice A :=
  Some (elems s ++ [x])%list.

Definition len {A : Type} (s : slice A) : nat := List.length (elems s).

End Slice.
Import Slice.

(** Go string literals are written as in the source: [go] reads the escapes
    [\t], [\n] and [\\] of an interpreted literal. *)
Definition TAB : ascii := ascii_of_nat 9.
Definition LF : ascii := ascii_of_nat 10.

Fixpoint go (lit : string) : string :=
  match lit with
  | EmptyString => EmptyString
  | String "\" (String c rest) =>
      if Ascii.eqb c "t" then String TAB (go rest)
      else if Ascii.eqb c "n" then String LF (go rest)
      else if Ascii.eqb c "\" then String "\" (go rest)
      else String "\" (String c (go rest))
  | String c rest => String c (go rest)
  end.

(** [strconv.Itoa], the rendering of [%d] and of [%v] on an integer. *)
Definition itoa (z : Z) : string := NilEmpty.string_of_int (Z.to_int z).

(** [strings.Join(elems, sep)]. *)
Definition strings_Join (elems : list string) (sep : string) : string :=
  String.concat sep elems.

(** Operands of the [fmt] verbs used in [list.go]. *)
Inductive fmtArg : Type :=
| ArgString (s : string)
| ArgInt (z : Z)
| ArgUint32 (n : N).

(** One verb applied to one operand.  [list.go] pairs [%s] with strings,
    [%d] with an [int] and [%v] with a [uint32]; any other pairing is
    rendered as the bad-verb marker, without the operand. *)
Definition formatArg (verb : ascii) (a : fmtArg) : string :=
  match a with
  | ArgString s =>
      if Ascii.eqb verb "s" || Ascii.eqb verb "v" then s
      else "%!" ++ String verb "(string)"
  | ArgInt z =>
      if Ascii.eqb verb "d" || Ascii.eqb verb "v" then itoa z
      else "%!" ++ String verb "(int)"
  | ArgUint32 n =>
      if Ascii.eqb verb "d" || Ascii.eqb verb "v" then itoa (Z.of_N n)
      else "%!" ++ String verb "(uint32)"
  end.

(** [fmt.Sprintf]: the format is copied, each verb consumes one operand. *)
Fixpoint Sprintf (format : string) (args : list fmtArg) : string :=
  match format with
  | EmptyString => EmptyString
  | String "%" EmptyString => "%!(NOVERB)"
  | String "%" (String verb rest) =>
      if Ascii.eqb verb "%" then String "%" (Sprintf rest args)
      else
        match args with
        | a :: args' => formatArg verb a ++ Sprintf rest args'
        | [] => "%!" ++ String verb "(MISSING)" ++ Sprintf rest []
        end
  | String c rest => String c (Sprintf rest args)
  end.

(** ** Errors and results *)

(** The [st] operand of the stat-type error, and the result of [os.Stat]. *)
Record Stat_t : Type := { Uid : N }.

Record FileInfo : Type := {
  IsDir : bool;
  (** [st.Sys()]: [Some] when it is a [*syscall.Stat_t] *)
  Sys : option Stat_t
}.

Inductive error : Type :=
| ErrMsg (msg : string)
    (** [errors.New(msg)] and [fmt.Errorf(msg)] *)
| ErrNotADirectory (dir : string)
    (** [fmt.Errorf("%q is not a directory", dir)] *)
| ErrStatType (st : FileInfo) (dir : string)
    (** [fmt.Errorf("cannot convert %+v to stat type for directory %q", st, dir)] *)
| ErrSys (msg : string)
    (** an error made outside [list.go]: [os.Stat], [vci.ListPod], a write,
        [Time.MarshalJSON] *)
| MarshalerError (e : error)
    (** [json.MarshalerError]: [e] is the failure of a [MarshalJSON] method *).

Inductive result (A : Type) : Type :=
| Ok (a : A)
| Err (e : error).
Arguments Ok {A} a.
Arguments Err {A} e.

Definition bind {A B : Type} (r : result A) (k : A -> result B) : result B :=
  match r with
  | Ok a => k a
  | Err e => Err e
  end.

Notation "x <- r ;; k" := (bind r (fun x => k))
  (at level 61, r at next level, right associativity).

(** ** The output file *)

(** An [*os.File] open for writing: what has been written to it, and
    whether it has been closed (a write to a closed file fails). *)
Record File : Type := {
  contents : string;
  closed : bool
}.

Definition ErrClosed : error := ErrSys "file already closed".

Definition File_Write (file : File) (p : string) : File * option error :=
  if closed file then (file, Some ErrClosed)
  else ({| contents := contents file ++ p; closed := false |}, None).

(** [fmt.Fprintln(file, s)] for one string operand. *)
Definition Fprintln (file : File) (s : string) : File * option error :=
  File_Write file (s ++ String LF "").

(** ** JSON values *)

Inductive JSON : Type :=
| JNull
| JString (s : string)
| JNumber (z : Z)
| JArray (l : list JSON)
| JObject (members : list (string * JSON)).

Definition keys (j : JSON) : list string :=
  match j with
  | JObject members => map fst members
  | _ => []
  end.

Definition member (k : string) (j : JSON) : option JSON :=
  match j with
  | JObject members =>
      option_map snd (find (fun kv => String.eqb (fst kv) k) members)
  | _ => None
  end.

(** ** Records of list.go *)

(** hypervisorDetails stores details of the hypervisor used to host the
    container. *)
Record hypervisorDetails : Type := {
  HypervisorPath : string;
  ImagePath : string;
  KernelPath : string
}.

(** getStaleAssets compares the two [hypervisorDetails] and returns which
    assets in [old] are not current compared to [new]. *)
Definition getStaleAssets (old new : hypervisorDetails) : slice string :=
  let stale : slice string := None in
  let stale :=
    if negb (String.eqb (KernelPath old) (KernelPath new))
    then append stale "kernel" else stale in
  let stale :=
    if negb (String.eqb (ImagePath old) (ImagePath new))
    then append stale "image" else stale in
  stale.

(** The STALE cell of [formatTabular.Write]:
    [strings.Join(item.StaleAssets, ",")], or ["-"] when that is empty. *)
Definition staleCell (StaleAssets : slice string) : string :=
  let stale := strings_Join (elems StaleAssets) "," in
  if String.eqb stale "" then "-" else stale.

(** ** Imported packages *)

(** [map[string]string]: the entries, in the ascending key order in which
    [encoding/json] writes a map. *)
Definition stringMap : Type := list (string * string).

(** [specs.State] of the OCI runtime specification, the result of
    [oci.StatusToOCIState]. *)
Module spec.
Record State : Type := {
  Version : string;
  ID : string;
  Status : string;
  Pid : Z;
  Bundle : string;
  Annotations : stringMap
}.
End spec.

(** The fields of virtcontainers' [HypervisorConfig] that [list.go] reads. *)
Module vc.
Record HypervisorConfig : Type := {
  KernelPath : string;
  ImagePath : string;
  HypervisorPath : string
}.
End vc.

Module oci.
Record RuntimeConfig : Type := {
  HypervisorConfig : vc.HypervisorConfig
}.
End oci.

(** [time.RFC3339Nano]. *)
Definition RFC3339Nano : string := "2006-01-02T15:04:05.999999999Z07:00".

(** What [list.go] calls and does not define. *)
Class GoLib : Type := {
  (** package [time] *)
  Time : Type;
  Time_Format : Time -> string -> string;
  Time_MarshalJSON : Time -> result JSON;
  (** package [encoding/json]: the quoted and escaped literal of a string *)
  json_quote : string -> string;
  (** package [text/tabwriter]: the aligned text a [Writer] made by
      [NewWriter(output, minwidth, tabwidth, padding, padchar, flags)]
      emits for the text written to it *)
  tabwriter_format : nat -> nat -> nat -> ascii -> N -> string -> string;
  (** virtcontainers: [ContainerStatus], its two fields read by
      [getContainers], and [oci.StatusToOCIState] *)
  ContainerStatus : Type;
  RootFs : ContainerStatus -> string;
  StartTime : ContainerStatus -> Time;
  StatusToOCIState : ContainerStatus -> spec.State
}.

Section ListCommand.

Context `{lib : GoLib}.

(** containerState represents the platform agnostic pieces relating to a
    running container's status and state. *)
Record containerState : Type := {
  Version : string;
  ID : string;
  InitProcessPid : Z;
  Status : string;
  Bundle : string;
  Rootfs : string;
  Created : Time;
  Annotations : stringMap;
  Owner : string
}.

(** fullContainerState specifies the core state plus the hypervisor
    details.  [containerState_] is the embedded [containerState]. *)
Record fullContainerState : Type := {
  containerState_ : containerState;
  CurrentHypervisorDetails : hypervisorDetails;
  LatestHypervisorDetails : hypervisorDetails;
  StaleAssets : slice string
}.

(** *** encoding/json on these records *)

(** The compact text of a JSON value. *)
Fixpoint json_render (j : JSON) : string :=
  match j with
  | JNull => "null"
  | JString s => json_quote s
  | JNumber z => itoa z
  | JArray l => "[" ++ String.concat "," (map json_render l) ++ "]"
  | JObject members =>
      "{" ++ String.concat ","
               (map (fun kv => json_quote (fst kv) ++ ":" ++ json_render (snd kv))
                    members) ++ "}"
  end.

(** [json:"hypervisorPath"], [json:"imagePath"], [json:"kernelPath"]. *)
Definition marshal_hypervisorDetails (h : hypervisorDetails) : JSON :=
  JObject [ ("hypervisorPath", JString (HypervisorPath h));
            ("imagePath", JString (ImagePath h));
            ("kernelPath", JString (KernelPath h)) ].

Definition marshal_strings (s : slice string) : JSON :=
  match s with
  | None => JNull
  | Some l => JArray (map JString l)
  end.

Definition marshal_stringMap (m : stringMap) : JSON :=
  JObject (map (fun kv => (fst kv, JString (snd kv))) m).

(** The members of a [fullContainerState], in the order of the struct
    fields and under the names of their [json] tags: the embedded
    [containerState] contributes its own fields, [annotations] carries
    [omitempty], and [StaleAssets] has no tag. *)
Definition marshal_fullContainerState (item : fullContainerState)
  : result JSON :=
  let st := containerState_ item in
  match Time_MarshalJSON (Created st) with
  | Err e => Err (MarshalerError e)
  | Ok created =>
      Ok (JObject
            ([ ("ociVersion", JString (Version st));
               ("id", JString (ID st));
               ("pid", JNumber (InitProcessPid st));
               ("status", JString (Status st));
               ("bundle", JString (Bundle st));
               ("rootfs", JString (Rootfs st));
               ("created", created) ]
             ++ (match Annotations st with
                 | [] => []
                 | _ :: _ => [ ("annotations", marshal_stringMap (Annotations st)) ]
                 end)
             ++ [ ("owner", JString (Owner st));
                  ("currentHypervisor",
                    marshal_hypervisorDetails (CurrentHypervisorDetails item));
                  ("latestHypervisor",
                    marshal_hypervisorDetails (LatestHypervisorDetails item));
                  ("StaleAssets", marshal_strings (StaleAssets item)) ])%list)
  end.

Fixpoint marshal_items (items : list fullContainerState)
  : result (list JSON) :=
  match items with
  | [] => Ok []
  | item :: rest =>
      j <- marshal_fullContainerState item ;;
      js <- marshal_items rest ;;
      Ok (j :: js)
  end.

(** [json.Marshal] on a [[]fullContainerState]. *)
Definition json_Marshal (state : slice fullContainerState) : result JSON :=
  match state with
  | None => Ok JNull
  | Some items => js <- marshal_items items ;; Ok (JArray js)
  end.

(** [json.NewEncoder(file).Encode(state)]: the value is marshalled first
    and written, followed by a newline, in one write. *)
Definition Encoder_Encode (file : File) (state : slice fullContainerState)
  : File * option error :=
  match json_Marshal state with
  | Err e => (file, Some e)
  | Ok j => File_Write file (json_render j ++ go "\n")
  end.

(** *** text/tabwriter *)

Record tabwriter_Writer : Type := {
  tw_output : File;
  tw_minwidth : nat;
  tw_tabwidth : nat;
  tw_padding : nat;
  tw_padchar : ascii;
  tw_flags : N;
  (** the text written so far *)
  tw_buf : string
}.

Definition tabwriter_NewWriter (output : File)
    (minwidth tabwidth padding : nat) (padchar : ascii) (flags : N)
  : tabwriter_Writer :=
  {| tw_output := output; tw_minwidth := minwidth; tw_tabwidth := tabwidth;
     tw_padding := padding; tw_padchar := padchar; tw_flags := flags;
     tw_buf := "" |}.

(** [fmt.Fprint(w, s)] on a tabwriter: the text is taken in; [list.go]
    does not look at the result of these calls. *)
Definition Fprint (w : tabwriter_Writer) (s : string) : tabwriter_Writer :=
  {| tw_output := tw_output w; tw_minwidth := tw_minwidth w;
     tw_tabwidth := tw_tabwidth w; tw_padding := tw_padding w;
     tw_padchar := tw_padchar w; tw_flags := tw_flags w;
     tw_buf := tw_buf w ++ s |}.

Definition Fprintf (w : tabwriter_Writer) (format : string)
    (args : list fmtArg) : tabwriter_Writer :=
  Fprint w (Sprintf format args).

(** [w.Flush()]: the aligned text goes to the output file. *)
Definition tabwriter_Flush (w : tabwriter_Writer) : File * option error :=
  File_Write (tw_output w)
    (tabwriter_format (tw_minwidth w) (tw_tabwidth w) (tw_padding w)
       (tw_padchar w) (tw_flags w) (tw_buf w)).

(** *** The output formats *)

(** [type formatState interface { Write(state, showAll, file) error }]:
    the file after the call, and the error returned. *)
Class formatState (F : Type) : Type :=
  Write : F -> slice fullContainerState -> bool -> File -> File * option error.

Inductive formatJSON : Type := mk_formatJSON.
Inductive formatIDList : Type := mk_formatIDList.
Inductive formatTabular : Type := mk_formatTabular.

(** The loop of [formatIDList.Write]. *)
Fixpoint formatIDList_range (items : list fullContainerState) (file : File)
  : File * option error :=
  match items with
  | [] => (file, None)
  | item :: rest =>
      match Fprintln file (ID (containerState_ item)) with
      | (file', Some err) => (file', Some err)
      | (file', None) => formatIDList_range rest file'
      end
  end.

Definition formatIDList_Write (f : formatIDList)
    (state : slice fullContainerState) (showAll : bool) (file : File)
  : File * option error :=
  formatIDList_range (elems state) file.

(** The body of the loop of [formatTabular.Write]. *)
Definition formatTabular_item (showAll : bool) (w : tabwriter_Writer)
    (item : fullContainerState) : tabwriter_Writer :=
  let st := containerState_ item in
  let w := Fprintf w (go "%s\t%d\t%s\t%s\t%s\t%s")
             [ ArgString (ID st);
               ArgInt (InitProcessPid st);
               ArgString (Status st);
               ArgString (Bundle st);
               ArgString (Time_Format (Created st) RFC3339Nano);
               ArgString (Owner st) ] in
  if showAll then
    let stale := staleCell (StaleAssets item) in
    let current := CurrentHypervisorDetails item in
    let latest := LatestHypervisorDetails item in
    Fprintf w (go "\t%s\t%s\t%s\t%s\t%s\t%s\n")
      [ ArgString (HypervisorPath current);
        ArgString (KernelPath current);
        ArgString (ImagePath current);
        ArgString (KernelPath latest);
        ArgString (ImagePath latest);
        ArgString stale ]
  else
    Fprintf w (go "\n") [].

(** The tabwriter of [formatTabular.Write] once every row is written to
    it, before [Flush]. *)
Definition formatTabular_writer (state : slice fullContainerState)
    (showAll : bool) (file : File) : tabwriter_Writer :=
  (* values used by runc *)
  let flags := 0%N in
  let minWidth := 12 in
  let tabWidth := 1 in
  let padding := 3 in
  let w := tabwriter_NewWriter file minWidth tabWidth padding " " flags in
  let w := Fprint w (go "ID\tPID\tSTATUS\tBUNDLE\tCREATED\tOWNER") in
  let w :=
    if showAll then
      Fprint w (go "\tHYPERVISOR\tKERNEL\tIMAGE\tLATEST-KERNEL\tLATEST-IMAGE\tSTALE\n")
    else
      Fprintf w (go "\n") [] in
  fold_left (formatTabular_item showAll) (elems state) w.

Definition formatTabular_Write (f : formatTabular)
    (state : slice fullContainerState) (showAll : bool) (file : File)
  : File * option error :=
  tabwriter_Flush (formatTabular_writer state showAll file).

Definition formatJSON_Write (f : formatJSON)
    (state : slice fullContainerState) (showAll : bool) (file : File)
  : File * option error :=
  Encoder_Encode file state.

#[export] Instance formatState_formatIDList : formatState formatIDList :=
  formatIDList_Write.
#[export] Instance formatState_formatTabular : formatState formatTabular :=
  formatTabular_Write.
#[export] Instance formatState_formatJSON : formatState formatJSON :=
  formatJSON_Write.

(** *** The host *)

(** The fields of virtcontainers' [PodStatus] that [list.go] reads. *)
Record PodStatus : Type := {
  HypervisorConfig : vc.HypervisorConfig;
  ContainersStatus : list ContainerStatus
}.

(** The two calls [list.go] makes out of the process: [vci.ListPod()] and
    [os.Stat(dir)]. *)
Record Host : Type := {
  vci_ListPod : result (list PodStatus);
  os_Stat : string -> result FileInfo
}.

(** The [*cli.Context] of the command:
    [context.App.Metadata["runtimeConfig"].(oci.RuntimeConfig)] ([None]
    when the assertion fails), [context.Bool] and [context.String]. *)
Record Context : Type := {
  Metadata_runtimeConfig : option oci.RuntimeConfig;
  context_Bool : string -> bool;
  context_String : string -> string
}.

(** getDirOwner returns the UID of the specified directory. *)
Definition getDirOwner (host : Host) (dir : string) : result N :=
  if String.eqb dir "" then Err (ErrMsg "BUG: need directory")
  else
    st <- os_Stat host dir ;;
    if negb (IsDir st) then Err (ErrNotADirectory dir)
    else
      match Sys st with
      | None => Err (ErrStatType st dir)
      | Some statType => Ok (Uid statType)
      end.

(** getHypervisorDetails returns details of the latest version of the
    hypervisor and the associated assets. *)
Definition getHypervisorDetails (runtimeConfig : oci.RuntimeConfig)
  : hypervisorDetails :=
  {| HypervisorPath := vc.HypervisorPath (oci.HypervisorConfig runtimeConfig);
     KernelPath := vc.KernelPath (oci.HypervisorConfig runtimeConfig);
     ImagePath := vc.ImagePath (oci.HypervisorConfig runtimeConfig) |}.

(** The record [getContainers] appends for one container. *)
Definition newFullContainerState
    (currentHypervisorDetails latestHypervisorDetails : hypervisorDetails)
    (container : ContainerStatus) (uid : N) : fullContainerState :=
  let ociState := StatusToOCIState container in
  let staleAssets :=
    getStaleAssets currentHypervisorDetails latestHypervisorDetails in
  let owner := Sprintf "#%v" [ArgUint32 uid] in
  {| containerState_ :=
       {| Version := spec.Version ociState;
          ID := spec.ID ociState;
          InitProcessPid := spec.Pid ociState;
          Status := spec.Status ociState;
          Bundle := spec.Bundle ociState;
          Rootfs := RootFs container;
          Created := StartTime container;
          Annotations := spec.Annotations ociState;
          Owner := owner |};
     CurrentHypervisorDetails := currentHypervisorDetails;
     LatestHypervisorDetails := latestHypervisorDetails;
     StaleAssets := staleAssets |}.

(** The inner loop of [getContainers], over [pod.ContainersStatus]. *)
Fixpoint range_ContainersStatus (host : Host)
    (currentHypervisorDetails latestHypervisorDetails : hypervisorDetails)
    (containers : list ContainerStatus) (s : slice fullContainerState)
  : result (slice fullContainerState) :=
  match containers with
  | [] => Ok s
  | container :: rest =>
      match getDirOwner host (RootFs container) with
      | Err err => Err err
      | Ok uid =>
          range_ContainersStatus host
            currentHypervisorDetails latestHypervisorDetails rest
            (append s (newFullContainerState currentHypervisorDetails
                         latestHypervisorDetails container uid))
      end
  end.

(** [currentHypervisorDetails] of a pod in [getContainers]. *)
Definition podHypervisorDetails (pod : PodStatus) : hypervisorDetails :=
  {| HypervisorPath := vc.HypervisorPath (HypervisorConfig pod);
     ImagePath := vc.ImagePath (HypervisorConfig pod);
     KernelPath := vc.KernelPath (HypervisorConfig pod) |}.

(** The outer loop of [getContainers], over [podList]. *)
Fixpoint range_podList (host : Host)
    (latestHypervisorDetails : hypervisorDetails)
    (podList : list PodStatus) (s : slice fullContainerState)
  : result (slice fullContainerState) :=
  match podList with
  | [] => Ok s
  | pod :: rest =>
      if Nat.eqb (List.length (ContainersStatus pod)) 0 then
        (* ignore empty pods *)
        range_podList host latestHypervisorDetails rest s
      else
        let currentHypervisorDetails := podHypervisorDetails pod in
        s' <- range_ContainersStatus host currentHypervisorDetails
                latestHypervisorDetails (ContainersStatus pod) s ;;
        range_podList host latestHypervisorDetails rest s'
  end.

Definition getContainers (context : Context) (host : Host)
  : result (slice fullContainerState) :=
  match Metadata_runtimeConfig context with
  | None => Err (ErrMsg "invalid runtime config")
  | Some runtimeConfig =>
      let latestHypervisorDetails := getHypervisorDetails runtimeConfig in
      podList <- vci_ListPod host ;;
      range_podList host latestHypervisorDetails podList None
  end.

(** The [Action] of [listCLICommand]; [defaultOutputFile] is the file the
    command writes to. *)
Definition Action (context : Context) (host : Host)
    (defaultOutputFile : File) : File * option error :=
  match getContainers context host with
  | Err err => (defaultOutputFile, Some err)
  | Ok s =>
      let file := defaultOutputFile in
      let showAll := context_Bool context "cc-all" in
      if context_Bool context "quiet" then
        Write mk_formatIDList s showAll file
      else if String.eqb (context_String context "format") "table" then
        Write mk_formatTabular s showAll file
      else if String.eqb (context_String context "format") "json" then
        Write mk_formatJSON s showAll file
      else
        (file, Some (ErrMsg "invalid format option"))
  end.

(** *** Views of the scan, for the statements below *)

(** [s] after the records [l] are appended to it one at a time. *)
Definition slice_app {A : Type} (s : slice A) (l : list A) : slice A :=
  match l with
  | [] => s
  | _ :: _ => Some (elems s ++ l)%list
  end.

(** [getDirOwner] finds an owner for the rootfs of the container. *)
Definition ownerFound (host : Host) (container : ContainerStatus) : Prop :=
  exists uid, getDirOwner host (RootFs container) = Ok uid.

Definition owner_uid (host : Host) (container : ContainerStatus) : N :=
  match getDirOwner host (RootFs container) with
  | Ok uid => uid
  | Err _ => 0%N
  end.

(** The records of one pod, one per container status, in order. *)
Definition pod_records (host : Host) (latest : hypervisorDetails)
    (pod : PodStatus) : list fullContainerState :=
  map (fun container =>
         newFullContainerState (podHypervisorDetails pod) latest container
           (owner_uid host container))
      (ContainersStatus pod).

(** [e] is the error of the first container of [containers], in scan
    order, whose owner [getDirOwner] does not find. *)
Definition firstFailure (host : Host) (containers : list ContainerStatus)
    (e : error) : Prop :=
  exists before container after,
    containers = (before ++ container :: after)%list
    /\ Forall (ownerFound host) before
    /\ getDirOwner host (RootFs container) = Err e.

(** The host with another list of pods behind [vci.ListPod]. *)
Definition withPods (host : Host) (pods : list PodStatus) : Host :=
  {| vci_ListPod := Ok pods; os_Stat := os_Stat host |}.

(** [len(pod.ContainersStatus) != 0]. *)
Definition hasContainers (pod : PodStatus) : bool :=
  negb (Nat.eqb (List.length (ContainersStatus pod)) 0).

(** [Time.MarshalJSON] accepts the creation time of the record. *)
Definition timeMarshals (item : fullContainerState) : Prop :=
  exists created, Time_MarshalJSON (Created (containerState_ item)) = Ok created.

(** The context with another value behind [context.String("format")]. *)
Definition withFormat (context : Context) (format : string) : Context :=
  {| Metadata_runtimeConfig := Metadata_runtimeConfig context;
     context_Bool := context_Bool context;
     context_String := fun name =>
       if String.eqb name "format" then format else context_String context name |}.

(** The lines of [formatIDList.Write]. *)
Definition idLines (items : list fullContainerState) : string :=
  String.concat "" (map (fun item => ID (containerState_ item) ++ String LF "") items).

(** The JSON record of a container: the members under the keys of the
    [json] tags, each with the value of its field, [annotations] present
    exactly when the container has annotations, and the stale assets in the
    last member. *)
Definition json_record_of (item : fullContainerState) (record : JSON) : Prop :=
  let st := containerState_ item in
  member "ociVersion" record = Some (JString (Version st))
  /\ member "id" record = Some (JString (ID st))
  /\ member "pid" record = Some (JNumber (InitProcessPid st))
  /\ member "status" record = Some (JString (Status st))
  /\ member "bundle" record = Some (JString (Bundle st))
  /\ member "rootfs" record = Some (JString (Rootfs st))
  /\ (exists created,
         Time_MarshalJSON (Created st) = Ok created
         /\ member "created" record = Some created)
  /\ member "annotations" record =
       match Annotations st with
       | [] => None
       | _ :: _ => Some (marshal_stringMap (Annotations st))
       end
  /\ member "owner" record = Some (JString (Owner st))
  /\ member "currentHypervisor" record =
       Some (marshal_hypervisorDetails (CurrentHypervisorDetails item))
  /\ member "latestHypervisor" record =
       Some (marshal_hypervisorDetails (LatestHypervisorDetails item))
  /\ exists staleKey,
       keys record =
         (["ociVersion"; "id"; "pid"; "status"; "bundle"; "rootfs"; "created"]
          ++ (match Annotations st with
              | [] => []
              | _ :: _ => ["annotations"]
              end)
          ++ ["owner"; "currentHypervisor"; "latestHypervisor"; staleKey])%list
       /\ member staleKey record = Some (marshal_strings (StaleAssets item)).

(** *** The table as the specification describes it *)

Inductive column : Type :=
| ColID | ColPID | ColSTATUS | ColBUNDLE | ColCREATED | ColOWNER
| ColHYPERVISOR | ColKERNEL | ColIMAGE
| ColLATEST_KERNEL | ColLATEST_IMAGE | ColSTALE.

Definition column_title (c : column) : string :=
  match c with
  | ColID => "ID"
  | ColPID => "PID"
  | ColSTATUS => "STATUS"
  | ColBUNDLE => "BUNDLE"
  | ColCREATED => "CREATED"
  | ColOWNER => "OWNER"
  | ColHYPERVISOR => "HYPERVISOR"
  | ColKERNEL => "KERNEL"
  | ColIMAGE => "IMAGE"
  | ColLATEST_KERNEL => "LATEST-KERNEL"
  | ColLATEST_IMAGE => "LATEST-IMAGE"
  | ColSTALE => "STALE"
  end.

(** The columns of the table, and those added by the show-all flag. *)
Definition spec_columns (showAll : bool) : list column :=
  ([ColID; ColPID; ColSTATUS; ColBUNDLE; ColCREATED; ColOWNER]
   ++ (if showAll
       then [ColHYPERVISOR; ColKERNEL; ColIMAGE;
             ColLATEST_KERNEL; ColLATEST_IMAGE; ColSTALE]
       else []))%list.

(** What a record shows under a column. *)
Definition spec_field (item : fullContainerState) (c : column) : string :=
  match c with
  | ColID => ID (containerState_ item)
  | ColPID => itoa (InitProcessPid (containerState_ item))
  | ColSTATUS => Status (containerState_ item)
  | ColBUNDLE => Bundle (containerState_ item)
  | ColCREATED => Time_Format (Created (containerState_ item)) RFC3339Nano
  | ColOWNER => Owner (containerState_ item)
  | ColHYPERVISOR => HypervisorPath (CurrentHypervisorDetails item)
  | ColKERNEL => KernelPath (CurrentHypervisorDetails item)
  | ColIMAGE => ImagePath (CurrentHypervisorDetails item)
  | ColLATEST_KERNEL => KernelPath (LatestHypervisorDetails item)
  | ColLATEST_IMAGE => ImagePath (LatestHypervisorDetails item)
  | ColSTALE => staleCell (StaleAssets item)
  end.

(** One line of text for the tabwriter: the cells separated by tabs, and
    a newline. *)
Definition line (cells : list string) : string :=
  strings_Join cells (String TAB "") ++ String LF "".

(** The text of a table: a header line and one line per row. *)
Definition table_text (header : list string) (rows : list (list string))
  : string :=
  line header ++ String.concat "" (map line rows).

(** Reading a table text back: [split_on sep s] is
    [strings.Split(s, sep)] for a one-character separator, a cell is a
    text without tab and newline, and the rows of a text are its
    newline-terminated lines split at the tabs. *)
Fixpoint split_on (sep : ascii) (s : string) : list string :=
  match s with
  | EmptyString => [EmptyString]
  | String c rest =>
      if Ascii.eqb c sep then EmptyString :: split_on sep rest
      else
        match split_on sep rest with
        | [] => [String c EmptyString]
        | x :: xs => String c x :: xs
        end
  end.

Fixpoint has_char (c : ascii) (s : string) : bool :=
  match s with
  | EmptyString => false
  | String x rest => Ascii.eqb x c || has_char c rest
  end.

Definition cellText (s : string) : Prop :=
  has_char TAB s = false /\ has_char LF s = false.

Definition rows_of (text : string) : list (list string) :=
  map (split_on TAB) (removelast (split_on LF text)).

End ListCommand.

(** ** A library instance and a host for examples

    Timestamps are kept as their RFC3339Nano text, strings are quoted
    without escaping, and the tabwriter passes its text through unaligned:
    enough to run the command on the inputs below. *)
Module Sample.

Definition DQUOTE : ascii := ascii_of_nat 34.

Record containerStatus : Type := {
  state : spec.State;
  rootFs : string;
  startTime : string
}.

Definition lib : GoLib :=
  {| Time := string;
     Time_Format := fun t layout =>
       if String.eqb layout RFC3339Nano then t else layout;
     Time_MarshalJSON := fun t => Ok (JString t);
     json_quote := fun s => String DQUOTE (s ++ String DQUOTE "");
     tabwriter_format := fun _ _ _ _ _ text => text;
     ContainerStatus := containerStatus;
     RootFs := rootFs;
     StartTime := startTime;
     StatusToOCIState := state |}.

End Sample.

Module Inputs.

Definition lib : GoLib := Sample.lib.

(** The configured assets of the host. *)
Definition latest : vc.HypervisorConfig :=
  {| vc.KernelPath := "/usr/share/clear-containers/vmlinuz.container";
     vc.ImagePath := "/usr/share/clear-containers/clear-containers.img";
     vc.HypervisorPath := "/usr/bin/qemu-lite-system-x86_64" |}.

Definition runtimeConfig : oci.RuntimeConfig :=
  {| oci.HypervisorConfig := latest |}.

(** A pod created with another hypervisor and the configured assets. *)
Definition otherHypervisor : vc.HypervisorConfig :=
  {| vc.KernelPath := "/usr/share/clear-containers/vmlinuz.container";
     vc.ImagePath := "/usr/share/clear-containers/clear-containers.img";
     vc.HypervisorPath := "/usr/bin/qemu-system-x86_64" |}.

(** A pod created with another hypervisor and an older kernel. *)
Definition olderKernel : vc.HypervisorConfig :=
  {| vc.KernelPath := "/usr/share/clear-containers/vmlinuz-4.9.container";
     vc.ImagePath := "/usr/share/clear-containers/clear-containers.img";
     vc.HypervisorPath := "/usr/bin/qemu-system-x86_64" |}.

Definition container (id : string) (pid : Z) (created : string)
  : Sample.containerStatus :=
  {| Sample.state :=
       {| spec.Version := "1.0.0-rc5";
          spec.ID := id;
          spec.Status := "running";
          spec.Pid := pid;
          spec.Bundle := "/bundles/" ++ id;
          spec.Annotations := [] |};
     Sample.rootFs := "/bundles/" ++ id ++ "/rootfs";
     Sample.startTime := created |}.

Definition c1 : @ContainerStatus lib :=
  container "c1" 1001 "2017-09-01T12:00:00.123456789Z".
Definition c2 : @ContainerStatus lib :=
  container "c2" 1002 "2017-09-02T08:30:00Z".

Definition emptyPod : @PodStatus lib :=
  {| HypervisorConfig := latest; ContainersStatus := [] |}.
Definition pod1 : @PodStatus lib :=
  {| HypervisorConfig := otherHypervisor; ContainersStatus := [c1] |}.
Definition pod2 : @PodStatus lib :=
  {| HypervisorConfig := olderKernel; ContainersStatus := [c2] |}.

Definition directory (uid : N) : FileInfo :=
  {| IsDir := true; Sys := Some {| Uid := uid |} |}.

(** Every rootfs is a directory owned by root. *)
Definition host : @Host lib :=
  {| vci_ListPod := Ok [emptyPod; pod1; pod2];
     os_Stat := fun _ => Ok (directory 0) |}.

(** The rootfs of [c1] is gone; that of [c2] is in place. *)
Definition hostMissingRootfs : @Host lib :=
  {| vci_ListPod := Ok [pod1; pod2];
     os_Stat := fun dir =>
       if String.eqb dir "/bundles/c1/rootfs"
       then Err (ErrSys "stat /bundles/c1/rootfs: no such file or directory")
       else Ok (directory 0) |}.

(** [list] with the given flags. *)
Definition context (format : string) (quiet all : bool) : Context :=
  {| Metadata_runtimeConfig := Some runtimeConfig;
     context_Bool := fun name =>
       if String.eqb name "quiet" then quiet
       else if String.eqb name "cc-all" then all
       else false;
     context_String := fun name =>
       if String.eqb name "format" then format else "" |}.

Definition stdout : File := {| contents := ""; closed := false |}.

(** The assets of the two pods and of the configuration, as
    [getContainers] reads them. *)
Definition configured : hypervisorDetails :=
  {| HypervisorPath := "/usr/bin/qemu-lite-system-x86_64";
     ImagePath := "/usr/share/clear-containers/clear-containers.img";
     KernelPath := "/usr/share/clear-containers/vmlinuz.container" |}.

Definition current1 : hypervisorDetails :=
  {| HypervisorPath := "/usr/bin/qemu-system-x86_64";
     ImagePath := "/usr/share/clear-containers/clear-containers.img";
     KernelPath := "/usr/share/clear-containers/vmlinuz.container" |}.

Definition current2 : hypervisorDetails :=
  {| HypervisorPath := "/usr/bin/qemu-system-x86_64";
     ImagePath := "/usr/share/clear-containers/clear-containers.img";
     KernelPath := "/usr/share/clear-containers/vmlinuz-4.9.container" |}.

(** The records of [c1] and [c2] on [host]. *)
Definition record1 : @fullContainerState lib :=
  newFullContainerState current1 configured c1 0.
Definition record2 : @fullContainerState lib :=
  newFullContainerState current2 configured c2 0.

Definition listed : slice (@fullContainerState lib) :=
  Some [record1; record2].

End Inputs.

(** * Properties *)

Section Properties.

Context `{lib : GoLib}.

(** ** Slices *)

Lemma elems_slice_app {A : Type} (s : slice A) (l : list A) :
  elems (slice_app s l) = (elems s ++ l)%list.
Proof.
  destruct l as [|x l]; simpl.
  - now rewrite app_nil_r.
  - reflexivity.
Qed.

Lemma slice_app_append {A : Type} (s : slice A) (x : A) (l : list A) :
  slice_app (append s x) l = slice_app s (x :: l).
Proof.
  unfold append. destruct l as [|y l]; simpl.
  - reflexivity.
  - now rewrite <- app_assoc.
Qed.

Lemma slice_app_app {A : Type} (s : slice A) (l1 l2 : list A) :
  slice_app (slice_app s l1) l2 = slice_app s (l1 ++ l2).
Proof.
  destruct l1 as [|x l1]; [reflexivity|].
  destruct l2 as [|y l2]; simpl.
  - now rewrite app_nil_r.
  - now rewrite <- app_assoc.
Qed.

(** ** The stale-asset comparison *)

Lemma getStaleAssets_elems (old new : hypervisorDetails) :
  elems (getStaleAssets old new) =
  ((if String.eqb (KernelPath old) (KernelPath new) then [] else ["kernel"])
   ++ (if String.eqb (ImagePath old) (ImagePath new) then [] else ["image"]))%list.
Proof.
  unfold getStaleAssets.
  destruct (String.eqb (KernelPath old) (KernelPath new));
    destruct (String.eqb (ImagePath old) (ImagePath new)); reflexivity.
Qed.

Lemma getStaleAssets_kernel (old new : hypervisorDetails) :
  In "kernel" (elems (getStaleAssets old new))
  <-> KernelPath old <> KernelPath new.
Proof.
  rewrite getStaleAssets_elems.
  destruct (String.eqb_spec (KernelPath old) (KernelPath new)) as [Hk|Hk];
    destruct (String.eqb_spec (ImagePath old) (ImagePath new)) as [Hi|Hi];
    simpl; split; intros H; try tauto;
    repeat destruct H as [H|H]; try discriminate; tauto.
Qed.

Lemma getStaleAssets_image (old new : hypervisorDetails) :
  In "image" (elems (getStaleAssets old new))
  <-> ImagePath old <> ImagePath new.
Proof.
  rewrite getStaleAssets_elems.
  destruct (String.eqb_spec (KernelPath old) (KernelPath new)) as [Hk|Hk];
    destruct (String.eqb_spec (ImagePath old) (ImagePath new)) as [Hi|Hi];
    simpl; split; intros H; try tauto;
    repeat destruct H as [H|H]; try discriminate; tauto.
Qed.

Lemma getStaleAssets_nonempty (old new : hypervisorDetails) :
  elems (getStaleAssets old new) <> []
  <-> (KernelPath old <> KernelPath new \/ ImagePath old <> ImagePath new).
Proof.
  rewrite getStaleAssets_elems.
  destruct (String.eqb_spec (KernelPath old) (KernelPath new)) as [Hk|Hk];
    destruct (String.eqb_spec (ImagePath old) (ImagePath new)) as [Hi|Hi];
    simpl; split; intros H; try tauto; try discriminate.
Qed.

(** ** The scan of the state directories *)

Lemma firstFailure_cons (host : Host) (c : ContainerStatus)
    (cs : list ContainerStatus) (e : error) :
  ownerFound host c -> firstFailure host cs e -> firstFailure host (c :: cs) e.
Proof.
  intros Hc (before & c' & after & -> & Hb & He).
  exists (c :: before), c', after. repeat split; auto.
Qed.

Lemma firstFailure_app (host : Host) (cs1 cs2 : list ContainerStatus)
    (e : error) :
  Forall (ownerFound host) cs1 -> firstFailure host cs2 e ->
  firstFailure host (cs1 ++ cs2) e.
Proof.
  induction 1 as [|c cs1 Hc _ IH]; intros H; simpl; auto.
  apply firstFailure_cons; auto.
Qed.

Lemma firstFailure_app_l (host : Host) (cs1 cs2 : list ContainerStatus)
    (e : error) :
  firstFailure host cs1 e -> firstFailure host (cs1 ++ cs2) e.
Proof.
  intros (before & c & after & -> & Hb & He).
  exists before, c, (after ++ cs2)%list. repeat split; auto.
  now rewrite <- app_assoc.
Qed.

Lemma firstFailure_unique (host : Host) (cs : list ContainerStatus)
    (e1 e2 : error) :
  firstFailure host cs e1 -> firstFailure host cs e2 -> e1 = e2.
Proof.
  revert e1 e2. induction cs as [|c cs IH]; intros e1 e2 H1 H2.
  - destruct H1 as (b & c & a & E & _). now destruct b.
  - destruct H1 as (b1 & c1 & a1 & E1 & F1 & G1).
    destruct H2 as (b2 & c2 & a2 & E2 & F2 & G2).
    destruct b1 as [|x1 b1]; destruct b2 as [|x2 b2]; simpl in *;
      injection E1 as <- E1; injection E2 as <- E2.
    + congruence.
    + inversion F2 as [|? ? [u Hu] _]; subst. congruence.
    + inversion F1 as [|? ? [u Hu] _]; subst. congruence.
    + apply IH.
      * exists b1, c1, a1. inversion F1; subst; auto.
      * exists b2, c2, a2. inversion F2; subst; auto.
Qed.

(** The inner loop: either every owner is found and one record per
    container is appended, in order, or the loop returns the first
    failure of [getDirOwner]. *)
Lemma range_ContainersStatus_spec (host : Host)
    (cur latest : hypervisorDetails) (cs : list ContainerStatus)
    (s : slice fullContainerState) :
  match range_ContainersStatus host cur latest cs s with
  | Ok s' =>
      Forall (ownerFound host) cs
      /\ s' = slice_app s
                (map (fun c => newFullContainerState cur latest c (owner_uid host c)) cs)
  | Err e => firstFailure host cs e
  end.
Proof.
  revert s. induction cs as [|c cs IH]; intros s; simpl.
  - split; [constructor | reflexivity].
  - destruct (getDirOwner host (RootFs c)) as [uid|e] eqn:Hc.
    + specialize (IH (append s (newFullContainerState cur latest c uid))).
      destruct (range_ContainersStatus host cur latest cs _) as [s'|e].
      * destruct IH as [Hall ->]. split.
        -- constructor; [now exists uid | assumption].
        -- rewrite slice_app_append. unfold owner_uid at 2. now rewrite Hc.
      * apply firstFailure_cons; [now exists uid | assumption].
    + exists [], c, cs. repeat split; auto.
Qed.

(** The outer loop, over the containers of all pods in scan order. *)
Lemma range_podList_spec (host : Host) (latest : hypervisorDetails)
    (pods : list PodStatus) (s : slice fullContainerState) :
  match range_podList host latest pods s with
  | Ok s' =>
      Forall (ownerFound host) (flat_map ContainersStatus pods)
      /\ s' = slice_app s (flat_map (pod_records host latest) pods)
  | Err e => firstFailure host (flat_map ContainersStatus pods) e
  end.
Proof.
  revert s. induction pods as [|pod pods IH]; intros s; simpl.
  - split; [constructor | reflexivity].
  - destruct (Nat.eqb_spec (List.length (ContainersStatus pod)) 0) as [Hlen|Hlen].
    + apply length_zero_iff_nil in Hlen.
      unfold pod_records at 1. rewrite Hlen. simpl. apply IH.
    + pose proof (range_ContainersStatus_spec host
                    (podHypervisorDetails pod) latest (ContainersStatus pod) s) as Hin.
      destruct (range_ContainersStatus host _ latest (ContainersStatus pod) s)
        as [s1|e]; simpl.
      * destruct Hin as [Hall ->]. specialize (IH (slice_app s
          (map (fun c => newFullContainerState (podHypervisorDetails pod)
                           latest c (owner_uid host c)) (ContainersStatus pod)))).
        destruct (range_podList host latest pods _) as [s'|e].
        -- destruct IH as [Hall' ->]. split.
           ++ apply Forall_app. split; assumption.
           ++ now rewrite slice_app_app.
        -- apply firstFailure_app; assumption.
      * now apply firstFailure_app_l.
Qed.

(** ** Strings *)

Lemma append_assoc (a b c : string) : (a ++ b) ++ c = a ++ (b ++ c).
Proof. induction a as [|x a IH]; simpl; [reflexivity | now rewrite IH]. Qed.

Lemma append_nil_r (a : string) : a ++ "" = a.
Proof. induction a as [|x a IH]; simpl; [reflexivity | now rewrite IH]. Qed.

Lemma concat_nil_sep_cons (x : string) (l : list string) :
  String.concat "" (x :: l) = x ++ String.concat "" l.
Proof.
  destruct l as [|y l]; simpl; [now rewrite append_nil_r | reflexivity].
Qed.

Ltac norm_append :=
  repeat first [ rewrite append_assoc | rewrite append_nil_r | progress simpl ].

(** ** The text given to the tabwriter *)

Lemma Fprint_Fprint (w : tabwriter_Writer) (a b : string) :
  Fprint (Fprint w a) b = Fprint w (a ++ b).
Proof. unfold Fprint; simpl. now rewrite append_assoc. Qed.

Lemma Fprint_empty (w : tabwriter_Writer) : Fprint w "" = w.
Proof. destruct w; unfold Fprint; simpl. now rewrite append_nil_r. Qed.

(** One turn of the loop of [formatTabular.Write] adds the line of the
    record, its cells in the order of the columns. *)
Lemma formatTabular_item_line (showAll : bool) (w : tabwriter_Writer)
    (item : fullContainerState) :
  formatTabular_item showAll w item =
  Fprint w (line (map (spec_field item) (spec_columns showAll))).
Proof.
  unfold formatTabular_item, Fprintf.
  destruct showAll; rewrite Fprint_Fprint; f_equal;
    unfold line, strings_Join; cbn; norm_append; reflexivity.
Qed.

Lemma formatTabular_fold (showAll : bool) (items : list fullContainerState)
    (w : tabwriter_Writer) :
  fold_left (formatTabular_item showAll) items w =
  Fprint w (String.concat ""
              (map line (map (fun item => map (spec_field item) (spec_columns showAll))
                             items))).
Proof.
  revert w. induction items as [|item items IH]; intros w.
  - simpl. now rewrite Fprint_empty.
  - cbn [fold_left map]. rewrite IH, formatTabular_item_line, Fprint_Fprint.
    now rewrite concat_nil_sep_cons.
Qed.

Lemma header_text (showAll : bool) :
  go "ID\tPID\tSTATUS\tBUNDLE\tCREATED\tOWNER"
  ++ (if showAll
      then go "\tHYPERVISOR\tKERNEL\tIMAGE\tLATEST-KERNEL\tLATEST-IMAGE\tSTALE\n"
      else Sprintf (go "\n") [])
  = line (map column_title (spec_columns showAll)).
Proof. destruct showAll; reflexivity. Qed.

(** The tabwriter of [formatTabular.Write] holds the header line and one
    line per record. *)
Lemma formatTabular_writer_text (state : slice fullContainerState)
    (showAll : bool) (file : File) :
  formatTabular_writer state showAll file =
  Fprint (tabwriter_NewWriter file 12 1 3 " " 0)
    (table_text (map column_title (spec_columns showAll))
       (map (fun item => map (spec_field item) (spec_columns showAll))
            (elems state))).
Proof.
  unfold formatTabular_writer, table_text. cbv zeta.
  rewrite formatTabular_fold. rewrite <- header_text.
  destruct showAll; unfold Fprintf; now rewrite !Fprint_Fprint.
Qed.

(** Under the show-all flag the row of a record ends with its STALE
    cell. *)
Lemma formatTabular_item_stale (w : tabwriter_Writer)
    (item : fullContainerState) :
  exists text,
    tw_buf (formatTabular_item true w item) =
    text ++ String TAB (staleCell (StaleAssets item)) ++ String LF "".
Proof.
  exists (tw_buf w
          ++ strings_Join
               (map (spec_field item)
                  [ColID; ColPID; ColSTATUS; ColBUNDLE; ColCREATED; ColOWNER;
                   ColHYPERVISOR; ColKERNEL; ColIMAGE;
                   ColLATEST_KERNEL; ColLATEST_IMAGE])
               (String TAB "")).
  rewrite formatTabular_item_line.
  unfold line, strings_Join. cbn. norm_append. reflexivity.
Qed.

(** ** getContainers *)

(** [getContainers] as a whole: the records of all pods in scan order, or
    the first error met. *)
Lemma getContainers_spec (context : Context) (host : Host) :
  match getContainers context host with
  | Ok s =>
      exists runtimeConfig pods,
        Metadata_runtimeConfig context = Some runtimeConfig
        /\ vci_ListPod host = Ok pods
        /\ Forall (ownerFound host) (flat_map ContainersStatus pods)
        /\ s = slice_app None
                 (flat_map (pod_records host (getHypervisorDetails runtimeConfig)) pods)
  | Err e =>
      (Metadata_runtimeConfig context = None
       /\ e = ErrMsg "invalid runtime config")
      \/ (Metadata_runtimeConfig context <> None /\ vci_ListPod host = Err e)
      \/ (exists pods,
            Metadata_runtimeConfig context <> None
            /\ vci_ListPod host = Ok pods
            /\ firstFailure host (flat_map ContainersStatus pods) e)
  end.
Proof.
  unfold getContainers.
  destruct (Metadata_runtimeConfig context) as [cfg|]; [|left; split; reflexivity].
  destruct (vci_ListPod host) as [pods|e]; simpl.
  - pose proof (range_podList_spec host (getHypervisorDetails cfg) pods None) as H.
    destruct (range_podList host (getHypervisorDetails cfg) pods None) as [s|e].
    + destruct H as [Hall ->]. exists cfg, pods. repeat split; auto.
    + right; right. exists pods. repeat split; auto. discriminate.
  - right; left. split; [discriminate | reflexivity].
Qed.

(** Every listed record was made by [newFullContainerState] for a
    container of a pod, with the owner [getDirOwner] found. *)
Lemma getContainers_In (context : Context) (host : Host)
    (s : slice fullContainerState) (item : fullContainerState) :
  getContainers context host = Ok s -> In item (elems s) ->
  exists runtimeConfig pods pod container uid,
    Metadata_runtimeConfig context = Some runtimeConfig
    /\ vci_ListPod host = Ok pods
    /\ In pod pods
    /\ In container (ContainersStatus pod)
    /\ getDirOwner host (RootFs container) = Ok uid
    /\ item = newFullContainerState (podHypervisorDetails pod)
                (getHypervisorDetails runtimeConfig) container uid.
Proof.
  intros Hs Hin. pose proof (getContainers_spec context host) as H.
  rewrite Hs in H. destruct H as (cfg & pods & Hcfg & Hpods & Hall & ->).
  rewrite elems_slice_app in Hin. simpl in Hin.
  apply in_flat_map in Hin. destruct Hin as (pod & Hpod & Hin).
  unfold pod_records in Hin. apply in_map_iff in Hin.
  destruct Hin as (c & <- & Hc).
  assert (Hown : ownerFound host c).
  { rewrite Forall_forall in Hall. apply Hall.
    apply in_flat_map. now exists pod. }
  destruct Hown as [uid Huid].
  exists cfg, pods, pod, c, uid. repeat split; auto.
  unfold owner_uid. now rewrite Huid.
Qed.

Lemma range_ContainersStatus_withPods (host : Host) (pods : list PodStatus)
    (cur latest : hypervisorDetails) (cs : list ContainerStatus)
    (s : slice fullContainerState) :
  range_ContainersStatus (withPods host pods) cur latest cs s =
  range_ContainersStatus host cur latest cs s.
Proof.
  revert s. induction cs as [|c cs IH]; intros s; simpl; [reflexivity|].
  change (getDirOwner (withPods host pods) (RootFs c))
    with (getDirOwner host (RootFs c)).
  destruct (getDirOwner host (RootFs c)); [apply IH | reflexivity].
Qed.

Lemma range_podList_filter (host : Host) (pods' : list PodStatus)
    (latest : hypervisorDetails) (pods : list PodStatus)
    (s : slice fullContainerState) :
  range_podList (withPods host pods') latest (filter hasContainers pods) s =
  range_podList host latest pods s.
Proof.
  revert s. induction pods as [|pod pods IH]; intros s; simpl; [reflexivity|].
  unfold hasContainers at 1.
  destruct (Nat.eqb (List.length (ContainersStatus pod)) 0) eqn:Hlen; simpl.
  - apply IH.
  - rewrite Hlen, range_ContainersStatus_withPods.
    destruct (range_ContainersStatus host _ latest (ContainersStatus pod) s);
      simpl; [apply IH | reflexivity].
Qed.

Lemma range_podList_withPods (host : Host) (pods' : list PodStatus)
    (latest : hypervisorDetails) (pods : list PodStatus)
    (s : slice fullContainerState) :
  range_podList (withPods host pods') latest pods s =
  range_podList host latest pods s.
Proof.
  revert s. induction pods as [|pod pods IH]; intros s; simpl; [reflexivity|].
  destruct (Nat.eqb (List.length (ContainersStatus pod)) 0); [apply IH|].
  rewrite range_ContainersStatus_withPods.
  destruct (range_ContainersStatus host _ latest (ContainersStatus pod) s);
    simpl; [apply IH | reflexivity].
Qed.

Lemma withPods_same (host : Host) (pods : list PodStatus) :
  vci_ListPod host = Ok pods -> withPods host pods = host.
Proof. destruct host as [lp st]; simpl; intros ->; reflexivity. Qed.

Lemma getContainers_filter (context : Context) (host : Host)
    (pods : list PodStatus) :
  getContainers context (withPods host (filter hasContainers pods)) =
  getContainers context (withPods host pods).
Proof.
  unfold getContainers.
  destruct (Metadata_runtimeConfig context) as [cfg|]; [|reflexivity].
  simpl. now rewrite range_podList_filter, range_podList_withPods.
Qed.

Lemma filter_hasContainers_drop (before after : list PodStatus)
    (pod : PodStatus) :
  ContainersStatus pod = [] ->
  filter hasContainers (before ++ pod :: after) =
  filter hasContainers (before ++ after).
Proof.
  intros Hpod. rewrite !filter_app. simpl.
  unfold hasContainers at 2. now rewrite Hpod.
Qed.

(** C9. [getContainers] omits every pod whose [ContainersStatus] is empty:
    scanning only the pods that have containers gives the same result,
    taking one empty pod out of the list changes nothing, and every record
    returned was made for a container of a pod that has at least one
    container status. *)
Theorem getContainers_ignores_empty_pods (context : Context) (host : Host)
    (pods : list PodStatus) :
  vci_ListPod host = Ok pods ->
  getContainers context (withPods host (filter hasContainers pods)) =
  getContainers context host
  /\ (forall before pod after,
         pods = (before ++ pod :: after)%list ->
         ContainersStatus pod = [] ->
         getContainers context (withPods host (before ++ after)) =
         getContainers context host)
  /\ (forall s item,
         getContainers context host = Ok s -> In item (elems s) ->
         exists pod container uid,
           In pod pods
           /\ ContainersStatus pod <> []
           /\ In container (ContainersStatus pod)
           /\ getDirOwner host (RootFs container) = Ok uid
           /\ item = newFullContainerState (podHypervisorDetails pod)
                       (LatestHypervisorDetails item) container uid).
Proof.
  intros Hpods. split; [|split].
  - rewrite getContainers_filter. now rewrite withPods_same.
  - intros before pod after -> Hpod.
    rewrite <- (withPods_same host _ Hpods) at 2.
    rewrite <- getContainers_filter.
    rewrite <- (getContainers_filter context host (before ++ pod :: after)).
    now rewrite (filter_hasContainers_drop before after pod Hpod).
  - intros s item Hs Hin.
    destruct (getContainers_In context host s item Hs Hin)
      as (cfg & pods' & pod & c & uid & Hcfg & Hpods' & Hpod & Hc & Huid & ->).
    rewrite Hpods in Hpods'. injection Hpods' as <-.
    exists pod, c, uid. repeat split; auto.
    intros Hnil. rewrite Hnil in Hc. contradiction.
Qed.

(** C4, as the code has it.  An error of [getDirOwner] on the rootfs of a
    container is not skipped: [getContainers] returns the error of the
    first such container in scan order and no record, and [Action] returns
    that error without writing to the output file. *)
Theorem list_fails_on_first_owner_error (context : Context) (host : Host)
    (file : File) (runtimeConfig : oci.RuntimeConfig)
    (pods : list PodStatus) (container : ContainerStatus) (err : error) :
  Metadata_runtimeConfig context = Some runtimeConfig ->
  vci_ListPod host = Ok pods ->
  In container (flat_map ContainersStatus pods) ->
  getDirOwner host (RootFs container) = Err err ->
  exists e,
    firstFailure host (flat_map ContainersStatus pods) e
    /\ getContainers context host = Err e
    /\ Action context host file = (file, Some e).
Proof.
  intros Hcfg Hpods Hin Herr.
  pose proof (getContainers_spec context host) as H.
  unfold Action.
  destruct (getContainers context host) as [s|e].
  - exfalso. destruct H as (cfg & pods' & _ & Hpods' & Hall & _).
    rewrite Hpods in Hpods'. injection Hpods' as <-.
    rewrite Forall_forall in Hall. destruct (Hall container Hin) as [uid Hu].
    congruence.
  - exists e. repeat split; auto.
    destruct H as [[Hnone _] | [[_ Hlp] | (pods' & _ & Hpods' & Hff)]].
    + congruence.
    + congruence.
    + rewrite Hpods in Hpods'. now injection Hpods' as <-.
Qed.

(** ** Reading the text back *)

Lemma has_char_append (c : ascii) (a b : string) :
  has_char c (a ++ b) = has_char c a || has_char c b.
Proof.
  induction a as [|x a IH]; simpl; [reflexivity|].
  now rewrite IH, orb_assoc.
Qed.

Lemma split_on_free (sep : ascii) (a : string) :
  has_char sep a = false -> split_on sep a = [a].
Proof.
  induction a as [|x a IH]; simpl; [reflexivity|].
  intros H. apply orb_false_iff in H. destruct H as [Hx Ha].
  rewrite Hx, (IH Ha). reflexivity.
Qed.

Lemma split_on_sep (sep : ascii) (a b : string) :
  has_char sep a = false ->
  split_on sep (a ++ String sep b) = a :: split_on sep b.
Proof.
  induction a as [|x a IH]; simpl.
  - intros _. now rewrite Ascii.eqb_refl.
  - intros H. apply orb_false_iff in H. destruct H as [Hx Ha].
    rewrite Hx, (IH Ha). reflexivity.
Qed.

Lemma split_on_join (sep : ascii) (cells : list string) :
  cells <> [] ->
  Forall (fun cell => has_char sep cell = false) cells ->
  split_on sep (strings_Join cells (String sep "")) = cells.
Proof.
  unfold strings_Join. induction cells as [|a cells IH]; [congruence|].
  intros _ Hall. inversion Hall as [|? ? Ha Hcells]; subst.
  destruct cells as [|b cells].
  - now apply split_on_free.
  - change (String.concat (String sep "") (a :: b :: cells))
      with (a ++ String sep (String.concat (String sep "") (b :: cells))).
    rewrite split_on_sep by assumption. f_equal.
    apply IH; [discriminate | assumption].
Qed.

Lemma has_char_join (c sep : ascii) (cells : list string) :
  Ascii.eqb sep c = false ->
  Forall (fun cell => has_char c cell = false) cells ->
  has_char c (strings_Join cells (String sep "")) = false.
Proof.
  intros Hsep. unfold strings_Join.
  induction cells as [|a cells IH]; [reflexivity|].
  intros Hall. inversion Hall as [|? ? Ha Hcells]; subst.
  destruct cells as [|b cells]; [exact Ha|].
  change (String.concat (String sep "") (a :: b :: cells))
    with (a ++ String sep (String.concat (String sep "") (b :: cells))).
  rewrite has_char_append, Ha. simpl. rewrite Hsep. simpl. now apply IH.
Qed.

Lemma split_on_lines (rows : list (list string)) :
  Forall (Forall cellText) rows ->
  split_on LF (String.concat "" (map line rows)) =
  (map (fun row => strings_Join row (String TAB "")) rows ++ [""])%list.
Proof.
  induction 1 as [|row rows Hrow _ IH]; [reflexivity|].
  cbn [map]. rewrite concat_nil_sep_cons. unfold line at 1.
  rewrite append_assoc. cbn [String.append].
  rewrite split_on_sep, IH; [reflexivity|].
  apply has_char_join; [reflexivity|].
  eapply Forall_impl; [|exact Hrow]. intros cell [_ H]. exact H.
Qed.

(** A table text whose cells hold no tab and no newline reads back as
    its header and rows. *)
Lemma rows_of_table_text (header : list string) (rows : list (list string)) :
  Forall (fun row => row <> []) (header :: rows) ->
  Forall (Forall cellText) (header :: rows) ->
  rows_of (table_text header rows) = header :: rows.
Proof.
  intros Hne Hcells. unfold rows_of, table_text.
  rewrite <- concat_nil_sep_cons.
  change (line header :: map line rows) with (map line (header :: rows)).
  rewrite split_on_lines by assumption.
  rewrite removelast_last, map_map.
  revert Hne Hcells. generalize (header :: rows) as l.
  induction l as [|row l IH]; intros Hne Hcells; [reflexivity|].
  inversion Hne; inversion Hcells; subst. cbn [map]. f_equal.
  - apply split_on_join; [assumption|].
    eapply Forall_impl; [|eassumption]. intros cell [H _]. exact H.
  - now apply IH.
Qed.

Lemma column_title_cellText (c : column) : cellText (column_title c).
Proof. destruct c; split; reflexivity. Qed.

(** C2. For every pair of [hypervisorDetails], the STALE cell of the
    tabular writer is ["-"] when [getStaleAssets] finds nothing, and
    otherwise the comma-joined list of what it finds: ["kernel"] exactly
    when the kernel paths differ, ["image"] exactly when the image paths
    differ, ["kernel"] before ["image"]; the writer ends the row of a
    record holding that list with this cell. *)
Theorem stale_cell_of_getStaleAssets (old new : hypervisorDetails) :
  let stale := getStaleAssets old new in
  let kernel := negb (String.eqb (KernelPath old) (KernelPath new)) in
  let image := negb (String.eqb (ImagePath old) (ImagePath new)) in
  elems stale =
    ((if kernel then ["kernel"] else []) ++ (if image then ["image"] else []))%list
  /\ (In "kernel" (elems stale) <-> KernelPath old <> KernelPath new)
  /\ (In "image" (elems stale) <-> ImagePath old <> ImagePath new)
  /\ staleCell stale =
       match elems stale with
       | [] => "-"
       | _ :: _ => strings_Join (elems stale) ","
       end
  /\ staleCell stale =
       (if kernel then if image then "kernel,image" else "kernel"
        else if image then "image" else "-")
  /\ (forall (w : tabwriter_Writer) (item : fullContainerState),
         StaleAssets item = stale ->
         exists text,
           tw_buf (formatTabular_item true w item) =
           text ++ String TAB (staleCell stale) ++ String LF "").
Proof.
  intros stale kernel image.
  split; [|split; [apply getStaleAssets_kernel
                  |split; [apply getStaleAssets_image|]]].
  - subst stale kernel image. rewrite getStaleAssets_elems.
    destruct (String.eqb (KernelPath old) (KernelPath new));
      destruct (String.eqb (ImagePath old) (ImagePath new)); reflexivity.
  - split; [|split].
    + subst stale. unfold getStaleAssets.
      destruct (String.eqb (KernelPath old) (KernelPath new));
        destruct (String.eqb (ImagePath old) (ImagePath new)); reflexivity.
    + subst stale kernel image. unfold getStaleAssets.
      destruct (String.eqb (KernelPath old) (KernelPath new));
        destruct (String.eqb (ImagePath old) (ImagePath new)); reflexivity.
    + intros w item Hitem. rewrite <- Hitem.
      apply formatTabular_item_stale.
Qed.

(** C6. The text [formatTabular.Write] gives the tabwriter is a header line
    with the columns ID, PID, STATUS, BUNDLE, CREATED, OWNER, followed under
    the show-all flag by HYPERVISOR, KERNEL, IMAGE, LATEST-KERNEL,
    LATEST-IMAGE, STALE, and then one line per record, in order, whose
    cells are the record's fields in the order of the header; when no field
    holds a tab or a newline, the text reads back as that header and those
    rows. *)
Theorem table_header_and_rows (f : formatTabular)
    (state : slice fullContainerState) (showAll : bool) (file : File) :
  let columns := spec_columns showAll in
  let header := map column_title columns in
  let rows := map (fun item => map (spec_field item) columns) (elems state) in
  header =
    (["ID"; "PID"; "STATUS"; "BUNDLE"; "CREATED"; "OWNER"]
     ++ (if showAll
         then ["HYPERVISOR"; "KERNEL"; "IMAGE";
               "LATEST-KERNEL"; "LATEST-IMAGE"; "STALE"]
         else []))%list
  /\ tw_buf (formatTabular_writer state showAll file) = table_text header rows
  /\ Write f state showAll file =
     File_Write file (tabwriter_format 12 1 3 " " 0 (table_text header rows))
  /\ List.length rows = len state
  /\ Forall (fun row => List.length row = List.length header) rows
  /\ (Forall (Forall cellText) rows ->
      rows_of (tw_buf (formatTabular_writer state showAll file)) = header :: rows).
Proof.
  intros columns header rows. split; [|split; [|split; [|split; [|split]]]].
  - subst header columns. destruct showAll; reflexivity.
  - rewrite formatTabular_writer_text. reflexivity.
  - unfold Write, formatState_formatTabular, formatTabular_Write, tabwriter_Flush.
    rewrite formatTabular_writer_text. reflexivity.
  - subst rows. unfold len. now rewrite length_map.
  - subst rows header. apply Forall_forall. intros row Hrow.
    apply in_map_iff in Hrow. destruct Hrow as (item & <- & _).
    now rewrite !length_map.
  - intros Hcells. rewrite formatTabular_writer_text.
    apply rows_of_table_text.
    + constructor.
      * subst header columns. destruct showAll; discriminate.
      * subst rows columns. apply Forall_forall. intros row Hrow.
        apply in_map_iff in Hrow. destruct Hrow as (item & <- & _).
        destruct showAll; discriminate.
    + constructor; [|exact Hcells].
      subst header. apply Forall_forall. intros title Ht.
      apply in_map_iff in Ht. destruct Ht as (c & <- & _).
      apply column_title_cellText.
Qed.


(** C10. [formatJSON.Write] and [formatIDList.Write] do not read
    [showAll]: two calls that differ only in that argument return the same
    file and the same error.  [formatTabular.Write] reads it: the text it
    gives the tabwriter differs with the flag, for every list of records. *)
Theorem showAll_is_read_by_the_table_only (state : slice fullContainerState)
    (file : File) (a b : bool) :
  Write mk_formatJSON state a file = Write mk_formatJSON state b file
  /\ Write mk_formatIDList state a file = Write mk_formatIDList state b file
  /\ tw_buf (formatTabular_writer state true file)
     <> tw_buf (formatTabular_writer state false file).
Proof.
  split; [reflexivity | split; [reflexivity|]].
  rewrite !formatTabular_writer_text. unfold table_text, line, strings_Join.
  cbn. intros H. discriminate H.
Qed.

(** ** The ID list *)

Lemma formatIDList_range_open (items : list fullContainerState) (file : File) :
  closed file = false ->
  formatIDList_range items file =
  ({| contents := contents file ++ idLines items; closed := false |}, None).
Proof.
  revert file. induction items as [|item items IH]; intros [text c] Hc;
    simpl in Hc; subst c.
  - unfold idLines; simpl. now rewrite append_nil_r.
  - cbn [formatIDList_range]. unfold Fprintln, File_Write. cbn [closed contents].
    rewrite IH by reflexivity. cbn [contents].
    unfold idLines. cbn [map]. rewrite concat_nil_sep_cons.
    now rewrite !append_assoc.
Qed.

Lemma Action_withFormat_quiet (context : Context) (host : Host) (file : File)
    (format : string) :
  context_Bool context "quiet" = true ->
  Action (withFormat context format) host file = Action context host file.
Proof.
  intros Hq. unfold Action.
  change (getContainers (withFormat context format) host)
    with (getContainers context host).
  change (context_Bool (withFormat context format)) with (context_Bool context).
  rewrite Hq. reflexivity.
Qed.

(** C8. With the quiet flag set, [Action] prints the container IDs, one
    per line, and never looks at the format option: whatever string stands
    behind it, valid or not, the command returns no error and writes the
    same lines. *)
Theorem quiet_list_never_reads_format (context : Context) (host : Host)
    (file : File) (s : slice fullContainerState) :
  context_Bool context "quiet" = true ->
  getContainers context host = Ok s ->
  closed file = false ->
  forall format : string,
    Action (withFormat context format) host file =
    ({| contents := contents file ++ idLines (elems s); closed := false |}, None).
Proof.
  intros Hq Hs Hc format.
  rewrite Action_withFormat_quiet by assumption.
  unfold Action. rewrite Hs, Hq.
  unfold Write, formatState_formatIDList, formatIDList_Write.
  now apply formatIDList_range_open.
Qed.

(** ** JSON *)

Lemma marshal_fullContainerState_Ok (item : fullContainerState) :
  timeMarshals item ->
  exists created,
    Time_MarshalJSON (Created (containerState_ item)) = Ok created
    /\ marshal_fullContainerState item =
       Ok (JObject
             ([ ("ociVersion", JString (Version (containerState_ item)));
                ("id", JString (ID (containerState_ item)));
                ("pid", JNumber (InitProcessPid (containerState_ item)));
                ("status", JString (Status (containerState_ item)));
                ("bundle", JString (Bundle (containerState_ item)));
                ("rootfs", JString (Rootfs (containerState_ item)));
                ("created", created) ]
              ++ (match Annotations (containerState_ item) with
                  | [] => []
                  | _ :: _ =>
                      [ ("annotations",
                          marshal_stringMap (Annotations (containerState_ item))) ]
                  end)
              ++ [ ("owner", JString (Owner (containerState_ item)));
                   ("currentHypervisor",
                     marshal_hypervisorDetails (CurrentHypervisorDetails item));
                   ("latestHypervisor",
                     marshal_hypervisorDetails (LatestHypervisorDetails item));
                   ("StaleAssets", marshal_strings (StaleAssets item)) ])%list).
Proof.
  intros [created Hc]. exists created. split; [exact Hc|].
  unfold marshal_fullContainerState. now rewrite Hc.
Qed.

Lemma marshal_items_Ok (items : list fullContainerState) :
  Forall timeMarshals items ->
  exists records,
    marshal_items items = Ok records
    /\ Forall2 (fun item record => marshal_fullContainerState item = Ok record)
         items records.
Proof.
  induction 1 as [|item items Hitem _ (records & Hrec & Hall)].
  - exists []. split; [reflexivity | constructor].
  - destruct (marshal_fullContainerState_Ok item Hitem) as (created & _ & Hm).
    eexists (_ :: records). simpl. rewrite Hm. simpl. rewrite Hrec. simpl.
    split; [reflexivity|]. constructor; [exact Hm | exact Hall].
Qed.

(** The nil slice is written as [null]. *)
Lemma json_Marshal_nil : json_Marshal None = Ok JNull.
Proof. reflexivity. Qed.

(** The key of the stale assets in a record is the name of the untagged
    field. *)
Lemma marshal_fullContainerState_keys (item : fullContainerState)
    (record : JSON) :
  marshal_fullContainerState item = Ok record ->
  keys record =
    (["ociVersion"; "id"; "pid"; "status"; "bundle"; "rootfs"; "created"]
     ++ (match Annotations (containerState_ item) with
         | [] => []
         | _ :: _ => ["annotations"]
         end)
     ++ ["owner"; "currentHypervisor"; "latestHypervisor"; "StaleAssets"])%list.
Proof.
  unfold marshal_fullContainerState.
  destruct (Time_MarshalJSON (Created (containerState_ item))); [|discriminate].
  intros H. injection H as <-.
  destruct (Annotations (containerState_ item)); reflexivity.
Qed.

Lemma marshal_fullContainerState_record (item : fullContainerState)
    (record : JSON) :
  marshal_fullContainerState item = Ok record -> json_record_of item record.
Proof.
  unfold marshal_fullContainerState, json_record_of.
  destruct (Time_MarshalJSON (Created (containerState_ item))) as [created|];
    [|discriminate].
  intros H. injection H as <-.
  destruct (Annotations (containerState_ item)) as [|kv m];
    (repeat split; try reflexivity;
     [ exists created; split; reflexivity
     | exists "StaleAssets"; split; reflexivity ]).
Qed.

(** C1, as the code has it.  The stale assets of a listed container are
    [getStaleAssets] of the pod's assets against the configured ones, and
    [getStaleAssets] compares the kernel and the image paths only: it lists
    ["kernel"] exactly when the kernel paths differ and ["image"] exactly
    when the image paths differ, whatever the hypervisor paths are.  Under
    the show-all flag the row of the container ends with the STALE cell of
    that list, and its JSON record carries the list. *)
Theorem stale_assets_follow_kernel_and_image (context : Context)
    (host : Host) (s : slice fullContainerState) (item : fullContainerState) :
  getContainers context host = Ok s -> In item (elems s) ->
  let current := CurrentHypervisorDetails item in
  let latest := LatestHypervisorDetails item in
  (exists runtimeConfig pods pod,
      Metadata_runtimeConfig context = Some runtimeConfig
      /\ vci_ListPod host = Ok pods
      /\ In pod pods
      /\ latest = getHypervisorDetails runtimeConfig
      /\ current = podHypervisorDetails pod)
  /\ StaleAssets item = getStaleAssets current latest
  /\ (In "kernel" (elems (StaleAssets item))
      <-> KernelPath current <> KernelPath latest)
  /\ (In "image" (elems (StaleAssets item))
      <-> ImagePath current <> ImagePath latest)
  /\ (elems (StaleAssets item) <> []
      <-> KernelPath current <> KernelPath latest
          \/ ImagePath current <> ImagePath latest)
  /\ (KernelPath current = KernelPath latest ->
      ImagePath current = ImagePath latest ->
      StaleAssets item = None /\ staleCell (StaleAssets item) = "-")
  /\ (forall w : tabwriter_Writer,
         exists text,
           tw_buf (formatTabular_item true w item) =
           text ++ String TAB (staleCell (getStaleAssets current latest))
                ++ String LF "")
  /\ (forall record : JSON,
         marshal_fullContainerState item = Ok record ->
         exists staleKey,
           member staleKey record =
           Some (marshal_strings (getStaleAssets current latest))).
Proof.
  intros Hs Hin current latest.
  destruct (getContainers_In context host s item Hs Hin)
    as (cfg & pods & pod & c & uid & Hcfg & Hpods & Hpod & Hc & Huid & Hitem).
  assert (Hstale : StaleAssets item = getStaleAssets current latest)
    by (subst item; reflexivity).
  split; [|split; [exact Hstale|]].
  - exists cfg, pods, pod. subst item. repeat split; auto.
  - rewrite Hstale. split; [apply getStaleAssets_kernel|].
    split; [apply getStaleAssets_image|].
    split; [apply getStaleAssets_nonempty|].
    split; [|split].
    + intros Hk Hi. unfold getStaleAssets. rewrite Hk, Hi, !String.eqb_refl.
      split; reflexivity.
    + intros w. rewrite <- Hstale. apply formatTabular_item_stale.
    + intros record Hrec. rewrite <- Hstale.
      destruct (marshal_fullContainerState_record item record Hrec)
        as (_ & _ & _ & _ & _ & _ & _ & _ & _ & _ & _ & key & _ & Hkey).
      now exists key.
Qed.

(** C3, as the code has it.  For an allocated list of records whose
    creation times [Time.MarshalJSON] accepts, [formatJSON.Write] writes an
    array with one record per container, in order, followed by a newline.
    Each record has the members ociVersion, id, pid, status, bundle, rootfs,
    created, then annotations when the container has annotations and not
    otherwise, then owner, currentHypervisor and latestHypervisor, each
    with the value of its field, and the stale assets in a last member. *)
Theorem json_output_records (f : formatJSON)
    (items : list fullContainerState) (showAll : bool) (file : File) :
  Forall timeMarshals items ->
  exists records,
    json_Marshal (Some items) = Ok (JArray records)
    /\ Write f (Some items) showAll file =
       File_Write file (json_render (JArray records) ++ String LF "")
    /\ Forall2 json_record_of items records
    /\ (forall (context : Context) (host : Host),
           context_Bool context "quiet" = false ->
           context_String context "format" = "json" ->
           getContainers context host = Ok (Some items) ->
           Action context host file =
           File_Write file (json_render (JArray records) ++ String LF "")).
Proof.
  intros Hall. destruct (marshal_items_Ok items Hall) as (records & Hrec & H2).
  exists records.
  assert (Hm : json_Marshal (Some items) = Ok (JArray records))
    by (unfold json_Marshal; rewrite Hrec; reflexivity).
  assert (Hw : forall showAll,
             Write f (Some items) showAll file =
             File_Write file (json_render (JArray records) ++ String LF "")).
  { intros b.
    unfold Write, formatState_formatJSON, formatJSON_Write, Encoder_Encode.
    rewrite Hm. reflexivity. }
  split; [exact Hm | split; [apply Hw | split]].
  - clear Hrec Hm Hall Hw.
    induction H2 as [|item record items records Hi _ IH];
      constructor; auto using marshal_fullContainerState_record.
  - intros context host Hq Hf Hs. unfold Action. rewrite Hs, Hq, Hf.
    cbn [String.eqb]. destruct f. apply Hw.
Qed.

(** C5. Without the quiet flag, a format other than ["table"] and ["json"]
    makes [Action] return an error and write nothing; once the containers
    are read that error is the invalid-format one.  With ["table"], and
    with ["json"] when the creation times marshal, [Action] returns no
    error when the containers are read and the output file is open. *)
Theorem format_option_is_validated (context : Context) (host : Host)
    (file : File) :
  context_Bool context "quiet" = false ->
  let format := context_String context "format" in
  (format <> "table" -> format <> "json" ->
   exists e,
     Action context host file = (file, Some e)
     /\ (forall s, getContainers context host = Ok s ->
                   e = ErrMsg "invalid format option"))
  /\ (forall s,
         getContainers context host = Ok s -> closed file = false ->
         (format = "table" -> snd (Action context host file) = None)
         /\ (format = "json" -> Forall timeMarshals (elems s) ->
             snd (Action context host file) = None)).
Proof.
  intros Hq format. unfold Action. rewrite Hq. fold format. split.
  - intros Ht Hj. destruct (getContainers context host) as [s|e].
    + apply String.eqb_neq in Ht, Hj. rewrite Ht, Hj.
      exists (ErrMsg "invalid format option"). split; reflexivity.
    + exists e. split; [reflexivity|]. intros s Hs. discriminate Hs.
  - intros s -> Hc. split.
    + intros ->. cbn [String.eqb].
      unfold Write, formatState_formatTabular, formatTabular_Write,
        tabwriter_Flush.
      rewrite formatTabular_writer_text. unfold Fprint, tabwriter_NewWriter.
      cbn [tw_output]. unfold File_Write. now rewrite Hc.
    + intros -> Hall. cbn [String.eqb].
      unfold Write, formatState_formatJSON, formatJSON_Write, Encoder_Encode.
      destruct s as [items|]; cbn [elems] in Hall.
      * destruct (marshal_items_Ok items Hall) as (records & Hrec & _).
        unfold json_Marshal. rewrite Hrec. cbn [bind].
        unfold File_Write. now rewrite Hc.
      * cbn [json_Marshal]. unfold File_Write. now rewrite Hc.
Qed.

End Properties.

(** * The command on the example host *)

Example list_table_all :
  @Action Inputs.lib (Inputs.context "table" false true) Inputs.host Inputs.stdout
  = ({| contents :=
          go ("ID\tPID\tSTATUS\tBUNDLE\tCREATED\tOWNER"
              ++ "\tHYPERVISOR\tKERNEL\tIMAGE\tLATEST-KERNEL\tLATEST-IMAGE\tSTALE\n"
              ++ "c1\t1001\trunning\t/bundles/c1\t2017-09-01T12:00:00.123456789Z\t#0"
              ++ "\t/usr/bin/qemu-system-x86_64"
              ++ "\t/usr/share/clear-containers/vmlinuz.container"
              ++ "\t/usr/share/clear-containers/clear-containers.img"
              ++ "\t/usr/share/clear-containers/vmlinuz.container"
              ++ "\t/usr/share/clear-containers/clear-containers.img\t-\n"
              ++ "c2\t1002\trunning\t/bundles/c2\t2017-09-02T08:30:00Z\t#0"
              ++ "\t/usr/bin/qemu-system-x86_64"
              ++ "\t/usr/share/clear-containers/vmlinuz-4.9.container"
              ++ "\t/usr/share/clear-containers/clear-containers.img"
              ++ "\t/usr/share/clear-containers/vmlinuz.container"
              ++ "\t/usr/share/clear-containers/clear-containers.img\tkernel\n");
        closed := false |}, None).
Proof. vm_compute. reflexivity. Qed.

Example list_table :
  @Action Inputs.lib (Inputs.context "table" false false) Inputs.host Inputs.stdout
  = ({| contents :=
          go ("ID\tPID\tSTATUS\tBUNDLE\tCREATED\tOWNER\n"
              ++ "c1\t1001\trunning\t/bundles/c1\t2017-09-01T12:00:00.123456789Z\t#0\n"
              ++ "c2\t1002\trunning\t/bundles/c2\t2017-09-02T08:30:00Z\t#0\n");
        closed := false |}, None).
Proof. vm_compute. reflexivity. Qed.

Example list_quiet :
  @Action Inputs.lib (Inputs.context "table" true false) Inputs.host Inputs.stdout
  = ({| contents := go "c1\nc2\n"; closed := false |}, None).
Proof. vm_compute. reflexivity. Qed.

Example getContainers_listed :
  @getContainers Inputs.lib (Inputs.context "table" false false) Inputs.host
  = Ok Inputs.listed.
Proof. vm_compute. reflexivity. Qed.

(** With no container to list, the JSON output is [null]. *)
Example list_json_no_container :
  @Action Inputs.lib (Inputs.context "json" false false)
    (withPods Inputs.host [Inputs.emptyPod]) Inputs.stdout
  = ({| contents := go "null\n"; closed := false |}, None).
Proof. vm_compute. reflexivity. Qed.

(** ** C1 *)

(** [pod1] runs another hypervisor than the configured one, on the
    configured kernel and image: nothing is reported stale, neither by
    [getStaleAssets] nor in the record [list] makes for its container. *)
Lemma hypervisor_change_is_not_stale :
  HypervisorPath Inputs.current1 <> HypervisorPath Inputs.configured
  /\ getStaleAssets Inputs.current1 Inputs.configured = None
  /\ staleCell (getStaleAssets Inputs.current1 Inputs.configured) = "-"
  /\ @getContainers Inputs.lib (Inputs.context "table" false true) Inputs.host
     = Ok (Some [Inputs.record1; Inputs.record2])
  /\ CurrentHypervisorDetails Inputs.record1 = Inputs.current1
  /\ LatestHypervisorDetails Inputs.record1 = Inputs.configured
  /\ StaleAssets Inputs.record1 = None.
Proof.
  split; [intros H; vm_compute in H; discriminate H|].
  repeat split; vm_compute; reflexivity.
Qed.

Lemma stale_assets_follow_kernel_and_image_witness :
  StaleAssets Inputs.record2
  = getStaleAssets (CurrentHypervisorDetails Inputs.record2)
      (LatestHypervisorDetails Inputs.record2)
  /\ In "kernel" (elems (StaleAssets Inputs.record2)).
Proof.
  pose proof (@stale_assets_follow_kernel_and_image Inputs.lib
                (Inputs.context "table" false true) Inputs.host
                Inputs.listed Inputs.record2
                getContainers_listed
                (or_intror (or_introl eq_refl))) as H.
  cbv zeta in H. destruct H as (_ & Hstale & Hkernel & _).
  split; [exact Hstale|].
  apply Hkernel. intros E. vm_compute in E. discriminate E.
Defined.

(** ** C2 *)

Lemma stale_cell_of_getStaleAssets_witness :
  staleCell (getStaleAssets Inputs.current2 Inputs.configured) = "kernel"
  /\ exists text,
       tw_buf (formatTabular_item true
                 (tabwriter_NewWriter Inputs.stdout 12 1 3 " " 0) Inputs.record2)
       = text ++ String TAB ("kernel" ++ String LF "").
Proof.
  pose proof (@stale_cell_of_getStaleAssets Inputs.lib
                Inputs.current2 Inputs.configured) as H.
  cbv zeta in H. destruct H as (_ & _ & _ & _ & Hcell & Hrow).
  split; [exact Hcell|].
  exact (Hrow (tabwriter_NewWriter Inputs.stdout 12 1 3 " " 0)
              Inputs.record2 eq_refl).
Defined.

(** ** C3 *)

(** The JSON record of [c1], a container without annotations: there is no
    member [annotations], and the stale assets are not under the key
    [staleAssets]. *)
Lemma json_record_without_annotations_and_staleAssets :
  exists record rest,
    @getContainers Inputs.lib (Inputs.context "json" false false) Inputs.host
    = Ok Inputs.listed
    /\ json_Marshal Inputs.listed = Ok (JArray (record :: rest))
    /\ keys record =
       ["ociVersion"; "id"; "pid"; "status"; "bundle"; "rootfs"; "created";
        "owner"; "currentHypervisor"; "latestHypervisor"; "StaleAssets"]
    /\ member "annotations" record = None
    /\ member "staleAssets" record = None.
Proof.
  eexists. eexists. split; [vm_compute; reflexivity|].
  split; [vm_compute; reflexivity|].
  repeat split; vm_compute; reflexivity.
Qed.

Lemma json_output_records_witness :
  exists records,
    json_Marshal Inputs.listed = Ok (JArray records)
    /\ Forall2 json_record_of [Inputs.record1; Inputs.record2] records.
Proof.
  assert (Hall : Forall (@timeMarshals Inputs.lib)
                   [Inputs.record1; Inputs.record2]).
  { repeat constructor; eexists; reflexivity. }
  destruct (@json_output_records Inputs.lib mk_formatJSON
              [Inputs.record1; Inputs.record2] false Inputs.stdout Hall)
    as (records & Hm & _ & Hrec & _).
  exists records. split; [exact Hm | exact Hrec].
Defined.

(** ** C4 *)

(** The rootfs of [c1] is missing and that of [c2] is in place: [list]
    does not print [c2], it returns the error of the stat and writes
    nothing. *)
Lemma list_stops_at_missing_rootfs :
  @getDirOwner Inputs.lib Inputs.hostMissingRootfs "/bundles/c1/rootfs"
  = Err (ErrSys "stat /bundles/c1/rootfs: no such file or directory")
  /\ @getDirOwner Inputs.lib Inputs.hostMissingRootfs "/bundles/c2/rootfs" = Ok 0%N
  /\ @Action Inputs.lib (Inputs.context "table" false false)
       Inputs.hostMissingRootfs Inputs.stdout
     = (Inputs.stdout,
        Some (ErrSys "stat /bundles/c1/rootfs: no such file or directory"))
  /\ @Action Inputs.lib (Inputs.context "json" false false)
       Inputs.hostMissingRootfs Inputs.stdout
     = (Inputs.stdout,
        Some (ErrSys "stat /bundles/c1/rootfs: no such file or directory"))
  /\ @Action Inputs.lib (Inputs.context "table" true false)
       Inputs.hostMissingRootfs Inputs.stdout
     = (Inputs.stdout,
        Some (ErrSys "stat /bundles/c1/rootfs: no such file or directory")).
Proof. repeat split; vm_compute; reflexivity. Qed.

Lemma list_fails_on_first_owner_error_witness :
  exists e,
    @getContainers Inputs.lib (Inputs.context "table" false false)
      Inputs.hostMissingRootfs = Err e
    /\ @Action Inputs.lib (Inputs.context "table" false false)
         Inputs.hostMissingRootfs Inputs.stdout = (Inputs.stdout, Some e).
Proof.
  destruct (@list_fails_on_first_owner_error Inputs.lib
              (Inputs.context "table" false false) Inputs.hostMissingRootfs
              Inputs.stdout Inputs.runtimeConfig [Inputs.pod1; Inputs.pod2]
              Inputs.c1
              (ErrSys "stat /bundles/c1/rootfs: no such file or directory")
              eq_refl eq_refl (or_introl eq_refl) eq_refl)
    as (e & _ & Hget & Hact).
  exists e. split; [exact Hget | exact Hact].
Defined.

(** ** C5 *)

Lemma format_option_is_validated_witness :
  (exists e,
      @Action Inputs.lib (Inputs.context "yaml" false false) Inputs.host
        Inputs.stdout = (Inputs.stdout, Some e)
      /\ e = ErrMsg "invalid format option")
  /\ snd (@Action Inputs.lib (Inputs.context "table" false false) Inputs.host
            Inputs.stdout) = None
  /\ snd (@Action Inputs.lib (Inputs.context "json" false false) Inputs.host
            Inputs.stdout) = None.
Proof.
  split; [|split].
  - pose proof (@format_option_is_validated Inputs.lib
                  (Inputs.context "yaml" false false) Inputs.host
                  Inputs.stdout eq_refl) as H.
    cbv zeta in H. destruct H as [H _].
    destruct H as (e & Hact & He).
    + intros E. vm_compute in E. discriminate E.
    + intros E. vm_compute in E. discriminate E.
    + exists e. split; [exact Hact|].
      apply (He Inputs.listed). vm_compute. reflexivity.
  - pose proof (@format_option_is_validated Inputs.lib
                  (Inputs.context "table" false false) Inputs.host
                  Inputs.stdout eq_refl) as H.
    cbv zeta in H. destruct H as [_ H].
    destruct (H Inputs.listed getContainers_listed eq_refl) as [Ht _].
    apply Ht. reflexivity.
  - pose proof (@format_option_is_validated Inputs.lib
                  (Inputs.context "json" false false) Inputs.host
                  Inputs.stdout eq_refl) as H.
    cbv zeta in H. destruct H as [_ H].
    assert (Hs : @getContainers Inputs.lib (Inputs.context "json" false false)
                   Inputs.host = Ok Inputs.listed)
      by (vm_compute; reflexivity).
    destruct (H Inputs.listed Hs eq_refl) as [_ Hj].
    apply Hj; [reflexivity|].
    repeat constructor; eexists; reflexivity.
Defined.

(** ** C8 *)

Lemma quiet_list_never_reads_format_witness :
  @Action Inputs.lib
    (withFormat (Inputs.context "table" true false) "no such format")
    Inputs.host Inputs.stdout
  = ({| contents := contents Inputs.stdout
                    ++ idLines [Inputs.record1; Inputs.record2];
        closed := false |}, None).
Proof.
  assert (Hs : @getContainers Inputs.lib (Inputs.context "table" true false)
                 Inputs.host = Ok Inputs.listed)
    by (vm_compute; reflexivity).
  exact (@quiet_list_never_reads_format Inputs.lib
           (Inputs.context "table" true false) Inputs.host Inputs.stdout
           Inputs.listed eq_refl Hs eq_refl "no such format").
Defined.

(** ** C9 *)

Lemma getContainers_ignores_empty_pods_witness :
  @getContainers Inputs.lib (Inputs.context "table" false false)
    (withPods Inputs.host [Inputs.pod1; Inputs.pod2])
  = @getContainers Inputs.lib (Inputs.context "table" false false) Inputs.host.
Proof.
  destruct (@getContainers_ignores_empty_pods Inputs.lib
              (Inputs.context "table" false false) Inputs.host
              [Inputs.emptyPod; Inputs.pod1; Inputs.pod2] eq_refl)
    as (Hfilter & _ & _).
  exact Hfilter.
Defined.

(** ** C6 *)

Lemma table_header_and_rows_witness :
  rows_of (tw_buf (formatTabular_writer Inputs.listed false Inputs.stdout))
  = [ ["ID"; "PID"; "STATUS"; "BUNDLE"; "CREATED"; "OWNER"];
      ["c1"; "1001"; "running"; "/bundles/c1";
       "2017-09-01T12:00:00.123456789Z"; "#0"];
      ["c2"; "1002"; "running"; "/bundles/c2"; "2017-09-02T08:30:00Z"; "#0"] ].
Proof.
  pose proof (@table_header_and_rows Inputs.lib mk_formatTabular
                Inputs.listed false Inputs.stdout) as H.
  cbv zeta in H. destruct H as (_ & _ & _ & _ & _ & Hrows).
  apply Hrows.
  repeat constructor.
Defined.

(** * Further properties of list.go *)

Section Coverage.

Context `{lib : GoLib}.

(** The fields [getContainers] copies from a container status and its OCI
    state into the record of the container. *)
Definition record_of_status (container : ContainerStatus)
    (item : fullContainerState) : Prop :=
  let st := containerState_ item in
  let ociState := StatusToOCIState container in
  Version st = spec.Version ociState
  /\ ID st = spec.ID ociState
  /\ InitProcessPid st = spec.Pid ociState
  /\ Status st = spec.Status ociState
  /\ Bundle st = spec.Bundle ociState
  /\ Annotations st = spec.Annotations ociState
  /\ Rootfs st = RootFs container
  /\ Created st = StartTime container.

(** [item] is the first record of [items], in order, whose creation time
    [Time.MarshalJSON] refuses, with the error [e]. *)
Definition firstMarshalFailure (items : list fullContainerState)
    (e : error) : Prop :=
  exists before item after,
    items = (before ++ item :: after)%list
    /\ Forall timeMarshals before
    /\ Time_MarshalJSON (Created (containerState_ item)) = Err e.

(** ** getDirOwner *)

(** X1. [getDirOwner] returns a uid exactly when the path is not empty,
    [os.Stat] succeeds on it, the result is a directory and its [Sys()] is
    a [*syscall.Stat_t] holding that uid. *)
Theorem getDirOwner_Ok_iff (host : Host) (dir : string) (uid : N) :
  getDirOwner host dir = Ok uid
  <-> dir <> ""
      /\ exists st,
           os_Stat host dir = Ok st
           /\ IsDir st = true
           /\ Sys st = Some {| Uid := uid |}.
Proof.
  unfold getDirOwner.
  destruct (String.eqb_spec dir "") as [->|Hdir].
  - split; [discriminate | intros [H _]; congruence].
  - destruct (os_Stat host dir) as [st|e]; simpl.
    + destruct (IsDir st) eqn:Hd; simpl.
      * destruct (Sys st) as [[u]|] eqn:Hs; simpl.
        -- split.
           ++ intros H. injection H as <-. split; [assumption|].
              exists st. rewrite Hs. auto.
           ++ intros (_ & st' & Hst & _ & Hsys). injection Hst as <-.
              rewrite Hs in Hsys. now injection Hsys as ->.
        -- split; [discriminate|].
           intros (_ & st' & Hst & _ & Hsys). injection Hst as <-.
           rewrite Hs in Hsys. discriminate.
      * split; [discriminate|].
        intros (_ & st' & Hst & Hd' & _). injection Hst as <-. congruence.
    + split; [discriminate|].
      intros (_ & st' & Hst & _). discriminate.
Qed.

(** X2. The errors of [getDirOwner], in the order the code checks: the
    empty path gives the need-directory error on every host, whatever the
    filesystem holds; then the error of [os.Stat] is returned as it is;
    then a path that is not a directory; then a stat result that is not a
    [*syscall.Stat_t]. *)
Theorem getDirOwner_Err_cases (host : Host) (dir : string) (e : error) :
  getDirOwner host dir = Err e ->
  (dir = "" /\ e = ErrMsg "BUG: need directory")
  \/ (dir <> "" /\ os_Stat host dir = Err e)
  \/ (dir <> ""
      /\ exists st,
           os_Stat host dir = Ok st
           /\ ((IsDir st = false /\ e = ErrNotADirectory dir)
               \/ (IsDir st = true /\ Sys st = None /\ e = ErrStatType st dir))).
Proof.
  unfold getDirOwner.
  destruct (String.eqb_spec dir "") as [->|Hdir].
  - intros H. injection H as <-. left. auto.
  - destruct (os_Stat host dir) as [st|e'] eqn:Hst; simpl.
    + destruct (IsDir st) eqn:Hd; simpl.
      * destruct (Sys st) as [u|] eqn:Hs; [discriminate|].
        intros H. injection H as <-. right; right. split; [assumption|].
        exists st. auto.
      * intros H. injection H as <-. right; right. split; [assumption|].
        exists st. auto.
    + intros H. injection H as <-. right; left. auto.
Qed.

Lemma getDirOwner_same_stat (host host' : Host) (dir : string) :
  os_Stat host' dir = os_Stat host dir ->
  getDirOwner host' dir = getDirOwner host dir.
Proof. unfold getDirOwner. now intros ->. Qed.

(** ** getStaleAssets *)

(** X3. [getStaleAssets] does not tell which side is the newer one: it
    gives the same list with its arguments exchanged, the nil list on equal
    details, and never more than the two entries, without repeats. *)
Theorem getStaleAssets_symmetric (old new : hypervisorDetails) :
  getStaleAssets old new = getStaleAssets new old
  /\ getStaleAssets old old = None
  /\ len (getStaleAssets old new) <= 2
  /\ NoDup (elems (getStaleAssets old new)).
Proof.
  unfold getStaleAssets, len.
  rewrite (String.eqb_sym (KernelPath new)), (String.eqb_sym (ImagePath new)).
  rewrite !String.eqb_refl.
  destruct (String.eqb (KernelPath old) (KernelPath new));
    destruct (String.eqb (ImagePath old) (ImagePath new)); simpl;
    (split; [reflexivity | split; [reflexivity | split; [lia|]]]);
    repeat constructor; simpl; intuition discriminate.
Qed.

(** ** getContainers *)

(** X4. The two checks [getContainers] makes before it scans: without a
    runtime configuration in the metadata it fails with the
    invalid-runtime-config error on every host, and with one, an error of
    [vci.ListPod] is returned as it is, whatever [os.Stat] would answer. *)
Theorem getContainers_fails_before_scan (context : Context) (host : Host) :
  (Metadata_runtimeConfig context = None ->
   getContainers context host = Err (ErrMsg "invalid runtime config"))
  /\ (forall e stat,
         Metadata_runtimeConfig context <> None ->
         vci_ListPod host = Err e ->
         getContainers context
           {| vci_ListPod := vci_ListPod host; os_Stat := stat |} = Err e).
Proof.
  unfold getContainers. split.
  - intros ->. reflexivity.
  - intros e stat Hcfg Hlp.
    destruct (Metadata_runtimeConfig context); [|congruence].
    cbn [vci_ListPod]. now rewrite Hlp.
Qed.

Lemma getContainers_elems (context : Context) (host : Host)
    (s : slice fullContainerState) :
  getContainers context host = Ok s ->
  exists runtimeConfig pods,
    Metadata_runtimeConfig context = Some runtimeConfig
    /\ vci_ListPod host = Ok pods
    /\ Forall (ownerFound host) (flat_map ContainersStatus pods)
    /\ s = slice_app None
             (flat_map (pod_records host (getHypervisorDetails runtimeConfig)) pods)
    /\ elems s =
       flat_map (pod_records host (getHypervisorDetails runtimeConfig)) pods.
Proof.
  intros Hs. pose proof (getContainers_spec context host) as H.
  rewrite Hs in H. destruct H as (cfg & pods & Hcfg & Hpods & Hall & ->).
  exists cfg, pods. repeat split; auto. now rewrite elems_slice_app.
Qed.

Lemma pod_records_status (host : Host) (latest : hypervisorDetails)
    (pod : PodStatus) :
  Forall2 record_of_status (ContainersStatus pod) (pod_records host latest pod).
Proof.
  unfold pod_records.
  induction (ContainersStatus pod) as [|c cs IH]; simpl; constructor; auto.
  repeat split.
Qed.

Lemma flat_map_pod_records_status (host : Host) (latest : hypervisorDetails)
    (pods : list PodStatus) :
  Forall2 record_of_status (flat_map ContainersStatus pods)
    (flat_map (pod_records host latest) pods).
Proof.
  induction pods as [|pod pods IH]; simpl; [constructor|].
  apply Forall2_app; [apply pod_records_status | exact IH].
Qed.

(** X5. When [getContainers] succeeds it returns one record per container
    status, in the order of the pods and, within a pod, of its container
    statuses; each record carries the OCI state of its container with the
    container's rootfs and start time; and the result is the nil slice
    exactly when no pod has a container. *)
Theorem getContainers_records_in_scan_order (context : Context) (host : Host)
    (s : slice fullContainerState) :
  getContainers context host = Ok s ->
  exists pods,
    vci_ListPod host = Ok pods
    /\ Forall2 record_of_status (flat_map ContainersStatus pods) (elems s)
    /\ len s = List.length (flat_map ContainersStatus pods)
    /\ (s = None <-> flat_map ContainersStatus pods = []).
Proof.
  intros Hs.
  destruct (getContainers_elems context host s Hs)
    as (cfg & pods & _ & Hpods & _ & Hslice & Helems).
  pose proof (flat_map_pod_records_status host (getHypervisorDetails cfg) pods)
    as H2.
  exists pods. split; [exact Hpods|]. rewrite <- Helems in H2.
  split; [exact H2|]. split.
  - unfold len. symmetry. eapply Forall2_length. exact H2.
  - split.
    + intros ->. simpl in H2. now inversion H2.
    + intros Hnil. rewrite Hnil in H2. rewrite Hslice, <- Helems.
      destruct (elems s); [reflexivity | inversion H2].
Qed.

(** X6. The owner shown for a listed container is ["#"] followed by the
    decimal uid that [getDirOwner] finds for the rootfs recorded in the
    same record. *)
Theorem listed_owner_is_rootfs_uid (context : Context) (host : Host)
    (s : slice fullContainerState) (item : fullContainerState) :
  getContainers context host = Ok s -> In item (elems s) ->
  exists uid,
    getDirOwner host (Rootfs (containerState_ item)) = Ok uid
    /\ Owner (containerState_ item) = "#" ++ itoa (Z.of_N uid).
Proof.
  intros Hs Hin.
  destruct (getContainers_In context host s item Hs Hin)
    as (cfg & pods & pod & c & uid & _ & _ & _ & _ & Huid & ->).
  exists uid. split; [exact Huid|].
  cbn. now rewrite append_nil_r.
Qed.

Lemma range_ContainersStatus_same_stat (host host' : Host)
    (cur latest : hypervisorDetails) (cs : list ContainerStatus)
    (s : slice fullContainerState) :
  (forall c, In c cs -> os_Stat host' (RootFs c) = os_Stat host (RootFs c)) ->
  range_ContainersStatus host' cur latest cs s =
  range_ContainersStatus host cur latest cs s.
Proof.
  revert s. induction cs as [|c cs IH]; intros s Hsame; simpl; [reflexivity|].
  rewrite (getDirOwner_same_stat host host' (RootFs c))
    by (apply Hsame; now left).
  destruct (getDirOwner host (RootFs c)); [|reflexivity].
  apply IH. intros c' Hc'. apply Hsame. now right.
Qed.

Lemma range_podList_same_stat (host host' : Host)
    (latest : hypervisorDetails) (pods : list PodStatus)
    (s : slice fullContainerState) :
  (forall c, In c (flat_map ContainersStatus pods) ->
             os_Stat host' (RootFs c) = os_Stat host (RootFs c)) ->
  range_podList host' latest pods s = range_podList host latest pods s.
Proof.
  revert s. induction pods as [|pod pods IH]; intros s Hsame; simpl;
    [reflexivity|].
  simpl in Hsame.
  destruct (Nat.eqb (List.length (ContainersStatus pod)) 0).
  - apply IH. intros c Hc. apply Hsame. apply in_or_app. now right.
  - rewrite (range_ContainersStatus_same_stat host host')
      by (intros c Hc; apply Hsame; apply in_or_app; now left).
    destruct (range_ContainersStatus host _ latest (ContainersStatus pod) s);
      simpl; [|reflexivity].
    apply IH. intros c Hc. apply Hsame. apply in_or_app. now right.
Qed.

(** X7. [getContainers] looks at the filesystem only through [os.Stat] on
    the rootfs of the containers that [vci.ListPod] returns: two hosts
    with the same pods whose [os.Stat] agrees on those paths give the same
    result, records or error. *)
Theorem getContainers_stats_rootfs_only (context : Context)
    (host host' : Host) (pods : list PodStatus) :
  vci_ListPod host = Ok pods ->
  vci_ListPod host' = Ok pods ->
  (forall c, In c (flat_map ContainersStatus pods) ->
             os_Stat host' (RootFs c) = os_Stat host (RootFs c)) ->
  getContainers context host' = getContainers context host.
Proof.
  intros Hp Hp' Hsame. unfold getContainers.
  destruct (Metadata_runtimeConfig context); [|reflexivity].
  rewrite Hp, Hp'. simpl. now apply range_podList_same_stat.
Qed.

(** X8. With nothing to list (every pod without container statuses)
    [getContainers] returns the nil slice without a call of [os.Stat], and
    the three formats differ: the quiet list writes nothing and succeeds
    even on a closed file, the JSON format writes [null] and a newline,
    and the table writes its header alone. *)
Theorem list_of_no_container (context : Context) (host : Host)
    (pods : list PodStatus) (file : File) :
  Metadata_runtimeConfig context <> None ->
  vci_ListPod host = Ok pods ->
  Forall (fun pod => ContainersStatus pod = []) pods ->
  getContainers context host = Ok None
  /\ (context_Bool context "quiet" = true ->
      Action context host file = (file, None))
  /\ (context_Bool context "quiet" = false ->
      context_String context "format" = "json" ->
      Action context host file = File_Write file (go "null\n"))
  /\ (context_Bool context "quiet" = false ->
      context_String context "format" = "table" ->
      Action context host file =
      File_Write file
        (tabwriter_format 12 1 3 " " 0
           (line (map column_title
                    (spec_columns (context_Bool context "cc-all")))))).
Proof.
  intros Hcfg Hpods Hempty.
  assert (Hs : getContainers context host = Ok None).
  { unfold getContainers.
    destruct (Metadata_runtimeConfig context) as [cfg|]; [|congruence].
    rewrite Hpods. simpl. clear Hpods.
    induction Hempty as [|pod pods Hpod _ IH]; simpl; [reflexivity|].
    rewrite Hpod. simpl. exact IH. }
  split; [exact Hs|]. unfold Action. rewrite Hs. split; [|split].
  - intros ->. reflexivity.
  - intros -> ->. reflexivity.
  - intros -> ->. cbn [String.eqb].
    unfold Write, formatState_formatTabular, formatTabular_Write,
      tabwriter_Flush.
    rewrite formatTabular_writer_text. cbn [elems map].
    unfold table_text. cbn [String.concat tw_output tw_minwidth tw_tabwidth
      tw_padding tw_padchar tw_flags tw_buf Fprint tabwriter_NewWriter].
    now rewrite append_nil_r.
Qed.

(** ** The writers *)

Lemma File_Write_appends (file : File) (p : string) :
  exists out,
    fst (File_Write file p) =
    {| contents := contents file ++ out; closed := closed file |}.
Proof.
  unfold File_Write. destruct file as [text c]. destruct c; cbn.
  - exists "". now rewrite append_nil_r.
  - now exists p.
Qed.

Lemma formatIDList_range_appends (items : list fullContainerState)
    (file : File) :
  exists out,
    fst (formatIDList_range items file) =
    {| contents := contents file ++ out; closed := closed file |}.
Proof.
  revert file. induction items as [|item items IH]; intros [text c].
  - exists "". cbn. now rewrite append_nil_r.
  - cbn [formatIDList_range]. unfold Fprintln, File_Write. destruct c; cbn.
    + exists "". now rewrite append_nil_r.
    + destruct (IH {| contents := text ++ ID (containerState_ item) ++ String LF "";
                      closed := false |}) as [out Hout].
      cbn in Hout.
      destruct (formatIDList_range items _) as [file' [err|]]; cbn in *;
        (exists ((ID (containerState_ item) ++ String LF "") ++ out);
         rewrite Hout; now rewrite !append_assoc).
Qed.

(** X9. On a closed file [formatIDList.Write] returns the error of its
    first write and leaves the file as it is; with no record it makes no
    write and returns no error. *)
Theorem formatIDList_Write_closed_file (f : formatIDList)
    (state : slice fullContainerState) (showAll : bool) (file : File) :
  closed file = true ->
  Write f state showAll file =
  (file, match elems state with
         | [] => None
         | _ :: _ => Some ErrClosed
         end).
Proof.
  intros Hc. unfold Write, formatState_formatIDList, formatIDList_Write.
  destruct (elems state) as [|item items]; [reflexivity|].
  cbn [formatIDList_range]. unfold Fprintln, File_Write. now rewrite Hc.
Qed.

Lemma marshal_fullContainerState_timeMarshals (item : fullContainerState)
    (record : JSON) :
  marshal_fullContainerState item = Ok record -> timeMarshals item.
Proof.
  unfold marshal_fullContainerState, timeMarshals.
  destruct (Time_MarshalJSON (Created (containerState_ item))) as [c|e];
    [eauto | discriminate].
Qed.

(** [marshal_items] gives one record per item, or the failure of the first
    creation time that does not marshal. *)
Lemma marshal_items_cases (items : list fullContainerState) :
  match marshal_items items with
  | Ok records =>
      Forall2 (fun item record => marshal_fullContainerState item = Ok record)
        items records
  | Err e => exists e', e = MarshalerError e' /\ firstMarshalFailure items e'
  end.
Proof.
  induction items as [|item items IH]; [constructor|].
  cbn [marshal_items].
  destruct (marshal_fullContainerState item) as [record|e] eqn:Hitem;
    cbn [bind].
  - destruct (marshal_items items) as [records|e]; cbn [bind].
    + constructor; assumption.
    + destruct IH as (e' & -> & before & it & after & -> & Hb & He).
      exists e'. split; [reflexivity|].
      exists (item :: before), it, after. repeat split; auto.
      constructor; [|assumption].
      eapply marshal_fullContainerState_timeMarshals; eassumption.
  - unfold marshal_fullContainerState in Hitem.
    destruct (Time_MarshalJSON (Created (containerState_ item))) as [c|e']
      eqn:Ht; [discriminate|].
    injection Hitem as <-. exists e'. split; [reflexivity|].
    exists [], item, items. repeat split; auto.
Qed.

Lemma firstMarshalFailure_not_all (items : list fullContainerState)
    (e : error) :
  firstMarshalFailure items e -> ~ Forall timeMarshals items.
Proof.
  intros (before & item & after & -> & _ & He) Hall.
  apply Forall_app in Hall. destruct Hall as [_ Hall].
  inversion Hall as [|? ? [c Hc] _]; subst. congruence.
Qed.

Lemma Forall2_marshal_all (items : list fullContainerState)
    (records : list JSON) :
  Forall2 (fun item record => marshal_fullContainerState item = Ok record)
    items records ->
  Forall timeMarshals items.
Proof.
  induction 1; constructor; auto.
  eapply marshal_fullContainerState_timeMarshals; eassumption.
Qed.

(** X10. [formatJSON.Write] writes all records or none: when the creation
    time of some record does not marshal, it writes nothing and returns
    the marshaler error of the first such record. *)
Theorem formatJSON_Write_all_or_nothing (f : formatJSON)
    (state : slice fullContainerState) (showAll : bool) (file : File)
    (item : fullContainerState) (e : error) :
  In item (elems state) ->
  Time_MarshalJSON (Created (containerState_ item)) = Err e ->
  exists e',
    firstMarshalFailure (elems state) e'
    /\ Write f state showAll file = (file, Some (MarshalerError e')).
Proof.
  intros Hin He.
  destruct state as [items|]; [|contradiction]. cbn [elems] in *.
  unfold Write, formatState_formatJSON, formatJSON_Write, Encoder_Encode,
    json_Marshal.
  pose proof (marshal_items_cases items) as H.
  destruct (marshal_items items) as [records|e0]; cbn [bind].
  - exfalso. apply Forall2_marshal_all in H.
    rewrite Forall_forall in H. destruct (H item Hin) as [c Hc]. congruence.
  - destruct H as (e' & -> & Hff). exists e'. split; [exact Hff | reflexivity].
Qed.

(** X11. The command only appends to its output file: after [Action], and
    after each of the three writers, the file holds what it held before
    followed by what was written, and is closed or open as it was. *)
Theorem list_only_appends (context : Context) (host : Host)
    (state : slice fullContainerState) (showAll : bool) (file : File) :
  (exists out,
      fst (Action context host file) =
      {| contents := contents file ++ out; closed := closed file |})
  /\ (exists out,
         fst (Write mk_formatIDList state showAll file) =
         {| contents := contents file ++ out; closed := closed file |})
  /\ (exists out,
         fst (Write mk_formatTabular state showAll file) =
         {| contents := contents file ++ out; closed := closed file |})
  /\ (exists out,
         fst (Write mk_formatJSON state showAll file) =
         {| contents := contents file ++ out; closed := closed file |}).
Proof.
  assert (Hsame : exists out,
             file = {| contents := contents file ++ out; closed := closed file |}).
  { exists "". destruct file. cbn. now rewrite append_nil_r. }
  assert (Hid : forall st b,
             exists out,
               fst (Write mk_formatIDList st b file) =
               {| contents := contents file ++ out; closed := closed file |}).
  { intros st b. apply formatIDList_range_appends. }
  assert (Htab : forall st b,
             exists out,
               fst (Write mk_formatTabular st b file) =
               {| contents := contents file ++ out; closed := closed file |}).
  { intros st b.
    unfold Write, formatState_formatTabular, formatTabular_Write,
      tabwriter_Flush.
    rewrite formatTabular_writer_text. apply File_Write_appends. }
  assert (Hjson : forall st b,
             exists out,
               fst (Write mk_formatJSON st b file) =
               {| contents := contents file ++ out; closed := closed file |}).
  { intros st b.
    unfold Write, formatState_formatJSON, formatJSON_Write, Encoder_Encode.
    destruct (json_Marshal st); [apply File_Write_appends | exact Hsame]. }
  split; [|split; [apply Hid | split; [apply Htab | apply Hjson]]].
  unfold Action. destruct (getContainers context host) as [s|e];
    [|exact Hsame].
  destruct (context_Bool context "quiet"); [apply Hid|].
  destruct (String.eqb (context_String context "format") "table");
    [apply Htab|].
  destruct (String.eqb (context_String context "format") "json");
    [apply Hjson | exact Hsame].
Qed.

(** X12. On an open output file [Action] returns no error exactly when the
    containers are read and either the quiet flag is set, or the format is
    ["table"], or the format is ["json"] and every creation time marshals;
    and whenever it returns an error it has written nothing. *)
Theorem Action_succeeds_iff (context : Context) (host : Host) (file : File) :
  closed file = false ->
  (snd (Action context host file) = None
   <-> exists s,
         getContainers context host = Ok s
         /\ (context_Bool context "quiet" = true
             \/ context_String context "format" = "table"
             \/ (context_String context "format" = "json"
                 /\ Forall timeMarshals (elems s))))
  /\ (snd (Action context host file) <> None ->
      fst (Action context host file) = file).
Proof.
  intros Hc. unfold Action.
  destruct (getContainers context host) as [s|e].
  2:{ split; [|reflexivity]. split; [discriminate|].
      intros (s & Hs & _). discriminate. }
  destruct (context_Bool context "quiet") eqn:Hq.
  { unfold Write, formatState_formatIDList, formatIDList_Write.
    rewrite formatIDList_range_open by assumption. cbn [fst snd].
    split; [|congruence]. split; [|reflexivity].
    intros _. exists s. auto. }
  destruct (String.eqb_spec (context_String context "format") "table")
    as [Ht|Ht].
  { unfold Write, formatState_formatTabular, formatTabular_Write,
      tabwriter_Flush.
    rewrite formatTabular_writer_text.
    cbn [tw_output Fprint tabwriter_NewWriter]. unfold File_Write.
    rewrite Hc. cbn [fst snd].
    split; [|congruence]. split; [|reflexivity].
    intros _. exists s. auto. }
  destruct (String.eqb_spec (context_String context "format") "json")
    as [Hj|Hj].
  { unfold Write, formatState_formatJSON, formatJSON_Write, Encoder_Encode.
    destruct s as [items|]; cbn [json_Marshal elems].
    - pose proof (marshal_items_cases items) as H.
      destruct (marshal_items items) as [records|e0]; cbn [bind].
      + unfold File_Write. rewrite Hc. cbn [fst snd].
        split; [|congruence]. split; [|reflexivity].
        intros _. exists (Some items). split; [reflexivity|].
        right; right. split; [assumption|].
        eapply Forall2_marshal_all; eassumption.
      + cbn [fst snd]. split; [|reflexivity]. split; [discriminate|].
        intros (s' & Hs' & [Hq'|[Ht'|[_ Hall]]]); try congruence.
        injection Hs' as <-. cbn [elems] in Hall.
        destruct H as (e' & _ & Hff).
        now apply firstMarshalFailure_not_all in Hff.
    - unfold File_Write. rewrite Hc. cbn [fst snd].
      split; [|congruence]. split; [|reflexivity].
      intros _. exists None. split; [reflexivity|].
      right; right. split; [assumption | constructor]. }
  cbn [fst snd]. split; [|reflexivity]. split; [discriminate|].
  intros (s' & _ & [Hq'|[Ht'|[Hj' _]]]); congruence.
Qed.



End Coverage.

(** * The further properties on example hosts *)

(** A library instance whose [Time.MarshalJSON] refuses the year 10000,
    and a record created then. *)
Module Strict.

Definition lib : GoLib :=
  {| Time := string;
     Time_Format := fun t layout =>
       if String.eqb layout RFC3339Nano then t else layout;
     Time_MarshalJSON := fun t =>
       if String.eqb t "10000-01-01T00:00:00Z"
       then Err (ErrSys "Time.MarshalJSON: year outside of range [0,9999]")
       else Ok (JString t);
     json_quote := fun s => String Sample.DQUOTE (s ++ String Sample.DQUOTE "");
     tabwriter_format := fun _ _ _ _ _ text => text;
     ContainerStatus := Sample.containerStatus;
     RootFs := Sample.rootFs;
     StartTime := Sample.startTime;
     StatusToOCIState := Sample.state |}.

Definition record1 : @fullContainerState lib :=
  @newFullContainerState lib Inputs.current1 Inputs.configured
    (Inputs.container "c1" 1001 "2017-09-01T12:00:00.123456789Z") 0.

Definition record3 : @fullContainerState lib :=
  @newFullContainerState lib Inputs.current2 Inputs.configured
    (Inputs.container "c3" 1003 "10000-01-01T00:00:00Z") 0.

End Strict.

Module MoreInputs.

(** The rootfs of [c1] is a regular file. *)
Definition hostRootfsIsFile : @Host Inputs.lib :=
  {| vci_ListPod := Ok [Inputs.pod1];
     os_Stat := fun _ => Ok {| IsDir := false; Sys := Some {| Uid := 0 |} |} |}.

(** The pods of [Inputs.host] on a filesystem where only the two rootfs
    directories exist. *)
Definition hostOnlyRootfs : @Host Inputs.lib :=
  {| vci_ListPod := Ok [Inputs.emptyPod; Inputs.pod1; Inputs.pod2];
     os_Stat := fun dir =>
       if String.eqb dir "/bundles/c1/rootfs" || String.eqb dir "/bundles/c2/rootfs"
       then Ok (Inputs.directory 0)
       else Err (ErrSys "stat: no such file or directory") |}.

(** [vci.ListPod] fails. *)
Definition hostNoPods : @Host Inputs.lib :=
  {| vci_ListPod := Err (ErrSys "open /var/lib/virtcontainers/pods: permission denied");
     os_Stat := fun _ => Ok (Inputs.directory 0) |}.

Definition closedFile : File := {| contents := "kept"; closed := true |}.

End MoreInputs.

Lemma getDirOwner_Err_cases_witness :
  @getDirOwner Inputs.lib MoreInputs.hostRootfsIsFile "/bundles/c1/rootfs"
  = Err (ErrNotADirectory "/bundles/c1/rootfs")
  /\ @getDirOwner Inputs.lib MoreInputs.hostRootfsIsFile ""
     = Err (ErrMsg "BUG: need directory").
Proof.
  split.
  - destruct (@getDirOwner_Err_cases Inputs.lib MoreInputs.hostRootfsIsFile
                "/bundles/c1/rootfs" (ErrNotADirectory "/bundles/c1/rootfs")
                eq_refl)
      as [[H _] | [[_ H] | _]]; [discriminate H | discriminate H | reflexivity].
  - destruct (@getDirOwner_Err_cases Inputs.lib MoreInputs.hostRootfsIsFile
                "" (ErrMsg "BUG: need directory") eq_refl)
      as [_ | [[H _] | [H _]]];
      [reflexivity | now contradiction H | now contradiction H].
Defined.

Lemma getContainers_fails_before_scan_witness :
  @getContainers Inputs.lib
    {| Metadata_runtimeConfig := None;
       context_Bool := fun _ => false;
       context_String := fun _ => "table" |}
    Inputs.host
  = Err (ErrMsg "invalid runtime config")
  /\ @getContainers Inputs.lib (Inputs.context "table" false false)
       MoreInputs.hostNoPods
     = Err (ErrSys "open /var/lib/virtcontainers/pods: permission denied").
Proof.
  split.
  - exact (proj1 (@getContainers_fails_before_scan Inputs.lib
                    {| Metadata_runtimeConfig := None;
                       context_Bool := fun _ => false;
                       context_String := fun _ => "table" |}
                    Inputs.host) eq_refl).
  - refine (proj2 (@getContainers_fails_before_scan Inputs.lib
                     (Inputs.context "table" false false) MoreInputs.hostNoPods)
                  _ (fun _ => Ok (Inputs.directory 0)) _ eq_refl).
    discriminate.
Defined.

Lemma getContainers_records_in_scan_order_witness :
  exists pods,
    vci_ListPod Inputs.host = Ok pods
    /\ len Inputs.listed = List.length (flat_map ContainersStatus pods).
Proof.
  destruct (@getContainers_records_in_scan_order Inputs.lib
              (Inputs.context "table" false false) Inputs.host Inputs.listed
              getContainers_listed)
    as (pods & Hpods & _ & Hlen & _).
  exists pods. split; [exact Hpods | exact Hlen].
Defined.

Lemma listed_owner_is_rootfs_uid_witness :
  exists uid,
    @getDirOwner Inputs.lib Inputs.host "/bundles/c2/rootfs" = Ok uid
    /\ Owner (containerState_ Inputs.record2) = "#" ++ itoa (Z.of_N uid).
Proof.
  exact (@listed_owner_is_rootfs_uid Inputs.lib
           (Inputs.context "table" false false) Inputs.host Inputs.listed
           Inputs.record2 getContainers_listed (or_intror (or_introl eq_refl))).
Defined.

Lemma getContainers_stats_rootfs_only_witness :
  @getContainers Inputs.lib (Inputs.context "table" false false)
    MoreInputs.hostOnlyRootfs
  = @getContainers Inputs.lib (Inputs.context "table" false false) Inputs.host.
Proof.
  apply (@getContainers_stats_rootfs_only Inputs.lib
           (Inputs.context "table" false false) Inputs.host
           MoreInputs.hostOnlyRootfs
           [Inputs.emptyPod; Inputs.pod1; Inputs.pod2] eq_refl eq_refl).
  intros c [<- | [<- | []]]; reflexivity.
Defined.

Lemma list_of_no_container_witness :
  @Action Inputs.lib (Inputs.context "json" true false)
    (withPods Inputs.host [Inputs.emptyPod]) MoreInputs.closedFile
  = (MoreInputs.closedFile, None)
  /\ @Action Inputs.lib (Inputs.context "json" false false)
       (withPods Inputs.host [Inputs.emptyPod]) Inputs.stdout
     = File_Write Inputs.stdout (go "null\n").
Proof.
  assert (Hempty : Forall (fun pod : @PodStatus Inputs.lib =>
                             ContainersStatus pod = []) [Inputs.emptyPod])
    by (repeat constructor).
  split.
  - destruct (@list_of_no_container Inputs.lib
                (Inputs.context "json" true false)
                (withPods Inputs.host [Inputs.emptyPod]) [Inputs.emptyPod]
                MoreInputs.closedFile ltac:(discriminate) eq_refl Hempty)
      as (_ & Hq & _).
    apply Hq. reflexivity.
  - destruct (@list_of_no_container Inputs.lib
                (Inputs.context "json" false false)
                (withPods Inputs.host [Inputs.emptyPod]) [Inputs.emptyPod]
                Inputs.stdout ltac:(discriminate) eq_refl Hempty)
      as (_ & _ & Hj & _).
    apply Hj; reflexivity.
Defined.

Lemma formatIDList_Write_closed_file_witness :
  Write mk_formatIDList Inputs.listed false MoreInputs.closedFile
  = (MoreInputs.closedFile, Some ErrClosed).
Proof.
  exact (@formatIDList_Write_closed_file Inputs.lib mk_formatIDList
           Inputs.listed false MoreInputs.closedFile eq_refl).
Defined.

Lemma formatJSON_Write_all_or_nothing_witness :
  exists e,
    Write mk_formatJSON (Some [Strict.record1; Strict.record3]) false
      Inputs.stdout
    = (Inputs.stdout, Some (MarshalerError e)).
Proof.
  destruct (@formatJSON_Write_all_or_nothing Strict.lib mk_formatJSON
              (Some [Strict.record1; Strict.record3]) false Inputs.stdout
              Strict.record3
              (ErrSys "Time.MarshalJSON: year outside of range [0,9999]")
              (or_intror (or_introl eq_refl)) eq_refl)
    as (e & _ & He).
  exists e. exact He.
Defined.

Lemma Action_succeeds_iff_witness :
  snd (@Action Inputs.lib (Inputs.context "table" false false) Inputs.host
         Inputs.stdout) = None.
Proof.
  apply (proj1 (@Action_succeeds_iff Inputs.lib
                  (Inputs.context "table" false false) Inputs.host
                  Inputs.stdout eq_refl)).
  exists Inputs.listed. split; [exact getContainers_listed|].
  right; left. reflexivity.
Defined.

